(** * Book enrichment pipeline: a shallow embedding of [PythonBooksScraping.py]

    The development follows the layout of the Python module: configuration,
    data structures, file handling, the two scraping sources, and the
    [BookEnricher] class with [fetch_google_books], [get_book_data] and
    [process_books].

    Python's effects are made explicit.  A computation runs against a state
    (the outside world and the disk), and returns an outcome (a value or a
    raised exception), the new state, and the events it performed, in
    chronological order. *)

From Stdlib Require Import ZArith List String Ascii Bool Lia DecimalString.
Import ListNotations.
Open Scope string_scope.
Open Scope list_scope.

(* ========================================================================= *)
(** ** Python runtime values *)
(* ========================================================================= *)

Module Py.

(** The exceptions that can travel through the program.  The last two derive
    from [BaseException] only, so [except Exception] lets them through. *)
Inductive exn : Type :=
| ClientError            (* aiohttp transport failure *)
| TimeoutError
| ContentTypeError       (* r.json() on a non-JSON body *)
| JSONDecodeError
| UnicodeDecodeError     (* response.text() *)
| ValueError
| KeyError (key : string)
| IndexError
| FileNotFoundError
| OSError
| NotImplementedError
| WrappedException       (* raise Exception(f"Error ...: {e}") *)
| CancelledError
| KeyboardInterrupt.

Definition is_Exception (e : exn) : bool :=
  match e with
  | CancelledError | KeyboardInterrupt => false
  | _ => true
  end.

(** A Python float.  The program never computes with floats, it only carries
    them around, so a float is identified by its [repr]. *)
Inductive pyfloat : Type := PyFloat (repr : string).

Definition float_repr (f : pyfloat) : string := let 'PyFloat r := f in r.

(** A value held in a cell of a pandas table. *)
Inductive cell : Type :=
| CInt (n : Z)
| CStr (s : string)
| CFloat (f : pyfloat)
| CNaN.

Definition str_of_Z (n : Z) : string := NilZero.string_of_int (Z.to_int n).

(** [str(x)], which is also what [astype(str)] applies to each element. *)
Definition str (c : cell) : string :=
  match c with
  | CInt n => str_of_Z n
  | CStr s => s
  | CFloat f => float_repr f
  | CNaN => "nan"
  end.

(** [xs[:n]] *)
Definition slice_to {A : Type} (n : nat) (xs : list A) : list A := firstn n xs.

(** [s[:n]] on a string *)
Definition str_slice_to (n : nat) (s : string) : string := substring 0 n s.

(** [sep.join(xs)] *)
Definition join (sep : string) (xs : list string) : string := String.concat sep xs.

(** [d.get(key, default)] on an optional field *)
Definition get_or {A : Type} (default : A) (field : option A) : A :=
  match field with Some v => v | None => default end.

End Py.
Import Py.

(* ========================================================================= *)
(** ** Configuration *)
(* ========================================================================= *)

Module CONFIG.
Definition GOOGLE_BOOKS_API_URL : string := "https://www.googleapis.com/books/v1/volumes".
Definition GOODREADS_URL : string := "https://www.goodreads.com/search".
Definition WORLDCAT_URL : string := "https://www.worldcat.org/search".
Definition MAX_RESULTS_PER_SOURCE : nat := 3.
Definition RATE_LIMIT_DELAY : Z := 1.
End CONFIG.

(* ========================================================================= *)
(** ** Data structures *)
(* ========================================================================= *)

(** The [BookData] dataclass; the field defaults are written out where a
    record is built. *)
Record BookData : Type := {
  book_name : string;
  isbn : string;
  authors : string;
  publisher : string;
  year : string;
  pages : Z;
  rating : pyfloat;
  url : string;
  source : string
}.

Definition zero_float : pyfloat := PyFloat "0.0".

(** [book.year = y] *)
Definition set_year (y : string) (b : BookData) : BookData :=
  {| book_name := book_name b; isbn := isbn b; authors := authors b;
     publisher := publisher b; year := y; pages := pages b; rating := rating b;
     url := url b; source := source b |}.

(** A pandas table: its column labels, and its rows (index label, then the
    values by column; a column a row has no value for reads as NaN). *)
Definition Row : Type := list (string * cell).

Record DataFrame : Type := {
  columns : list string;
  rows : list (nat * Row)
}.

Fixpoint row_get (col : string) (r : Row) : cell :=
  match r with
  | [] => CNaN
  | (k, v) :: r' => if String.eqb k col then v else row_get col r'
  end.

Definition has_column (col : string) (df : DataFrame) : bool :=
  existsb (String.eqb col) (columns df).

(** [pd.DataFrame()] *)
Definition empty_frame : DataFrame := {| columns := []; rows := [] |}.

(** [asdict(book)] *)
Definition asdict (b : BookData) : Row :=
  [ ("book_name", CStr (book_name b));
    ("isbn", CStr (isbn b));
    ("authors", CStr (authors b));
    ("publisher", CStr (publisher b));
    ("year", CStr (year b));
    ("pages", CInt (pages b));
    ("rating", CFloat (rating b));
    ("url", CStr (url b));
    ("source", CStr (source b)) ].

Definition BookData_fields : list string :=
  ["book_name"; "isbn"; "authors"; "publisher"; "year"; "pages"; "rating"; "url"; "source"].

Fixpoint enumerate_from {A : Type} (n : nat) (xs : list A) : list (nat * A) :=
  match xs with
  | [] => []
  | x :: xs' => (n, x) :: enumerate_from (S n) xs'
  end.

(** [pd.DataFrame(results)] for a list of [asdict] rows: a fresh range index. *)
Definition frame_of_records (records : list Row) : DataFrame :=
  {| columns := match records with [] => [] | _ => BookData_fields end;
     rows := enumerate_from 0 records |}.

(** [pd.concat([a, b])]: the union of the columns in order of appearance, the
    rows of [a] followed by those of [b], index labels kept. *)
Definition concat (a b : DataFrame) : DataFrame :=
  {| columns := columns a ++
                filter (fun c => negb (existsb (String.eqb c) (columns a))) (columns b);
     rows := rows a ++ rows b |}.

(* ========================================================================= *)
(** ** The outside world *)
(* ========================================================================= *)

Inductive Outcome (A : Type) : Type :=
| Ok (a : A)
| Raise (e : exn).
Arguments Ok {A} a.
Arguments Raise {A} e.

(** What [session.get] meets: the request itself fails, or a response arrives
    with a status and a body; reading the body ([await r.json()], or
    [await response.text()] then parsing and selecting) may fail in turn. *)
Inductive Reply (Body : Type) : Type :=
| GetRaises (e : exn)
| Response (status : Z) (body : Outcome Body).
Arguments GetRaises {Body} e.
Arguments Response {Body} status body.

(** The Google Books reply at the shape of [APIResponse]; every key may be
    missing. *)
Record VolumeInfo : Type := {
  vi_title : option string;
  vi_authors : option (list string);
  vi_publisher : option string;
  vi_publishedDate : option string;
  vi_pageCount : option Z;
  vi_averageRating : option pyfloat
}.

Record Item : Type := {
  volumeInfo : option VolumeInfo;
  selfLink : option string
}.

Record ApiData : Type := {
  totalItems : option Z;
  items : option (list Item)
}.

(** An element found by [select_one], seen through what the program asks of
    it: [.text.strip()], the [href] attribute, [float(.text.strip())] ([None]
    when that raises [ValueError]) and the match of the year pattern
    [\b(19|20)\d{2}\b] in [.text]. *)
Record Tag : Type := {
  text_strip : string;
  href : option string;
  as_float : option pyfloat;
  year_in_text : option string
}.

(** A row selected by ['.tableList tr'] on a Goodreads page;
    [gr_published] is group 1 of [published (\d{4})] in the row's text. *)
Record GoodreadsItem : Type := {
  gr_title : option Tag;
  gr_author : option Tag;
  gr_published : option string;
  gr_rating : option Tag
}.

(** An item selected by ['.bibliography'] on a WorldCat page. *)
Record WorldCatItem : Type := {
  wc_title : option Tag;
  wc_author : option Tag;
  wc_publisher : option Tag
}.

(** The operator at the prompt: interrupts it, or moves the cursor down some
    number of times from the first choice and confirms.  The cursor of an
    [inquirer.List] stops at the last choice. *)
Inductive Answer : Type :=
| Cancelled
| Selected (downs : nat).

(** The outside world as a script: the replies the three endpoints will give
    to successive requests, the operator's successive answers, and whether the
    successive writes to disk succeed.  An exhausted script means a dead
    network, an absent operator and a full disk. *)
Record World : Type := {
  google : list (Reply ApiData);
  goodreads : list (Reply (list GoodreadsItem));
  worldcat : list (Reply (list WorldCatItem));
  operator : list Answer;
  disk_writes : list bool
}.

Inductive File : Type :=
| Corrupt
| Table (df : DataFrame).

Definition Disk : Type := string -> option File.

Record State : Type := {
  world : World;
  disk : Disk
}.

(** The disk after [df] has been written to [path]. *)
Definition disk_with (d : Disk) (path : string) (df : DataFrame) : Disk :=
  fun p => if String.eqb p path then Some (Table df) else d p.

Record Choice : Type := {
  name : string;
  value : option BookData
}.

Inductive Msg : Type :=
| MsgGoogleStatus (status : Z)
| MsgGoogleError (isbn : string) (e : exn)
| MsgGoodreadsError (e : exn)
| MsgWorldCatError (e : exn)
| MsgFound (book_name : string)
| MsgNoGoogle (book_name isbn : string)
| MsgNoResults (book_name isbn : string)
| MsgErrorReading (e : exn)
| MsgNoNewBooks
| MsgProcessing (position total : nat)
| MsgAdded (count : nat)
| MsgErrorWriting (e : exn).

Inductive Event : Type :=
| EvGet (endpoint : string) (query : string)
| EvSleep (seconds : Z)
| EvPrint (line : Msg)
| EvPrompt (message : string) (choices : list Choice)
| EvWrite (path : string) (df : DataFrame).

(* ========================================================================= *)
(** ** The monad of the program *)
(* ========================================================================= *)

Definition M (A : Type) : Type := State -> Outcome A * State * list Event.

Definition ret {A : Type} (a : A) : M A := fun s => (Ok a, s, []).

Definition raise {A : Type} (e : exn) : M A := fun s => (Raise e, s, []).

Definition bind {A B : Type} (m : M A) (f : A -> M B) : M B :=
  fun s =>
    match m s with
    | (Ok a, s1, ev1) => let '(o, s2, ev2) := f a s1 in (o, s2, ev1 ++ ev2)
    | (Raise e, s1, ev1) => (Raise e, s1, ev1)
    end.

Notation "x <- m ;; k" := (bind m (fun x => k))
  (at level 61, m at next level, right associativity).
Notation "m ;;; k" := (bind m (fun _ => k))
  (at level 61, right associativity).

(** [try: body  except Exception as e: handler e] *)
Definition try_except {A : Type} (body : M A) (handler : exn -> M A) : M A :=
  fun s =>
    match body s with
    | (Raise e, s1, ev1) =>
        if is_Exception e
        then let '(o, s2, ev2) := handler e s1 in (o, s2, ev1 ++ ev2)
        else (Raise e, s1, ev1)
    | r => r
    end.

Definition emit (e : Event) : M unit := fun s => (Ok tt, s, [e]).

Definition print (m : Msg) : M unit := emit (EvPrint m).

(** [await asyncio.sleep(seconds)] *)
Definition sleep (seconds : Z) : M unit := emit (EvSleep seconds).

Definition lift {A : Type} (o : Outcome A) : M A := fun s => (o, s, []).

Definition outcome_of {A : Type} (r : Outcome A * State * list Event) : Outcome A :=
  fst (fst r).
Definition state_of {A : Type} (r : Outcome A * State * list Event) : State :=
  snd (fst r).
Definition events_of {A : Type} (r : Outcome A * State * list Event) : list Event :=
  snd r.

(* ========================================================================= *)
(** ** Primitives that touch the world *)
(* ========================================================================= *)

Definition with_world (w : World) (s : State) : State :=
  {| world := w; disk := disk s |}.

Definition next_reply {B : Type} (script : list (Reply B)) : Reply B * list (Reply B) :=
  match script with
  | [] => (GetRaises ClientError, [])
  | r :: rest => (r, rest)
  end.

(** [session.get(url)], one per endpoint. *)
Definition session_get_google (endpoint query : string) : M (Reply ApiData) :=
  fun s =>
    let w := world s in
    let '(r, rest) := next_reply (google w) in
    (Ok r,
     with_world {| google := rest; goodreads := goodreads w; worldcat := worldcat w;
                   operator := operator w; disk_writes := disk_writes w |} s,
     [EvGet endpoint query]).

Definition session_get_goodreads (endpoint query : string) : M (Reply (list GoodreadsItem)) :=
  fun s =>
    let w := world s in
    let '(r, rest) := next_reply (goodreads w) in
    (Ok r,
     with_world {| google := google w; goodreads := rest; worldcat := worldcat w;
                   operator := operator w; disk_writes := disk_writes w |} s,
     [EvGet endpoint query]).

Definition session_get_worldcat (endpoint query : string) : M (Reply (list WorldCatItem)) :=
  fun s =>
    let w := world s in
    let '(r, rest) := next_reply (worldcat w) in
    (Ok r,
     with_world {| google := google w; goodreads := goodreads w; worldcat := rest;
                   operator := operator w; disk_writes := disk_writes w |} s,
     [EvGet endpoint query]).

Definition skip_choice : Choice := {| name := "Skip this book"; value := None |}.

(** The choice under the cursor after [downs] presses of the down key. *)
Definition chosen (downs : nat) (choices : list Choice) : Choice :=
  nth (Nat.min downs (List.length choices - 1)) choices skip_choice.

(** [inquirer.prompt([inquirer.List('book', message, choices)])]: [None] when
    the operator interrupts, else the answers, here the value bound to
    ['book']. *)
Definition inquirer_prompt (message : string) (choices : list Choice)
  : M (option (option BookData)) :=
  fun s =>
    let w := world s in
    match operator w with
    | [] => (Ok None, s, [EvPrompt message choices])
    | a :: rest =>
        (Ok match a with
            | Cancelled => None
            | Selected downs => Some (value (chosen downs choices))
            end,
         with_world {| google := google w; goodreads := goodreads w; worldcat := worldcat w;
                       operator := rest; disk_writes := disk_writes w |} s,
         [EvPrompt message choices])
    end.

(* ========================================================================= *)
(** ** File handling *)
(* ========================================================================= *)

Module FileHandler.

Definition required_columns : list string := ["book_name"; "isbn"].

(** [pd.read_csv(path)] / [pd.read_excel(path)] *)
Definition pd_read (path : string) : M DataFrame :=
  fun s =>
    match disk s path with
    | None => (Raise FileNotFoundError, s, [])
    | Some Corrupt => (Raise ValueError, s, [])
    | Some (Table df) => (Ok df, s, [])
    end.

Definition read_file (path : string) : M DataFrame :=
  try_except
    (df <- pd_read path ;;
     if negb (forallb (fun col => has_column col df) required_columns)
     then raise ValueError
     else ret df)
    (fun e => raise WrappedException).

(** [df.to_csv(path, index=False)] / [df.to_excel(path, index=False)] *)
Definition pd_write (df : DataFrame) (path : string) : M unit :=
  fun s =>
    let w := world s in
    match disk_writes w with
    | true :: rest =>
        (Ok tt,
         {| world := {| google := google w; goodreads := goodreads w;
                        worldcat := worldcat w; operator := operator w;
                        disk_writes := rest |};
            disk := disk_with (disk s) path df |},
         [EvWrite path df])
    | false :: rest =>
        (Raise OSError,
         with_world {| google := google w; goodreads := goodreads w;
                       worldcat := worldcat w; operator := operator w;
                       disk_writes := rest |} s,
         [EvWrite path df])
    | [] => (Raise OSError, s, [EvWrite path df])
    end.

Definition write_file (df : DataFrame) (path : string) : M unit :=
  try_except (pd_write df path) (fun e => raise WrappedException).

End FileHandler.

(** [path.exists()] *)
Definition path_exists (path : string) : M bool :=
  fun s => (Ok match disk s path with Some _ => true | None => false end, s, []).

(* ========================================================================= *)
(** ** Data sources *)
(* ========================================================================= *)

(** The [search] capability of a [BookSource]. *)
Definition BookSource : Type := cell -> string -> M (list BookData).

Module BookSourceBase.
Definition search : BookSource := fun _ _ => raise NotImplementedError.
End BookSourceBase.

Module GoodreadsSource.

(** The body of the [for] loop for one row: [Ok None] is [continue]. *)
Definition candidate (isbn : string) (item : GoodreadsItem) : Outcome (option BookData) :=
  match gr_title item, gr_author item with
  | Some title_elem, Some author_elem =>
      let year_match := gr_published item in
      let rating_elem := gr_rating item in
      match (match rating_elem with
             | Some r => match as_float r with
                         | Some f => Ok f
                         | None => Raise ValueError
                         end
             | None => Ok zero_float
             end) with
      | Raise e => Raise e
      | Ok rating_value =>
          match href title_elem with
          | None => Raise (KeyError "href")
          | Some h =>
              Ok (Some {| book_name := text_strip title_elem;
                          isbn := isbn;
                          authors := text_strip author_elem;
                          publisher := "";
                          year := get_or "" year_match;
                          pages := 0;
                          rating := rating_value;
                          url := "https://www.goodreads.com" ++ h;
                          source := "goodreads" |})
          end
      end
  | _, _ => Ok None
  end.

Fixpoint scrape (isbn : string) (selected : list GoodreadsItem) (results : list BookData)
  : Outcome (list BookData) :=
  match selected with
  | [] => Ok results
  | item :: rest =>
      match candidate isbn item with
      | Raise e => Raise e
      | Ok None => scrape isbn rest results
      | Ok (Some b) => scrape isbn rest (results ++ [b])
      end
  end.

Definition search : BookSource := fun book_name isbn =>
  try_except
    (response <- session_get_goodreads CONFIG.GOODREADS_URL (str book_name ++ " " ++ isbn) ;;
     match response with
     | GetRaises e => raise e
     | Response status body =>
         if negb (status =? 200)%Z then ret []
         else
           soup <- lift body ;;
           lift (scrape isbn (slice_to CONFIG.MAX_RESULTS_PER_SOURCE soup) [])
     end)
    (fun e => print (MsgGoodreadsError e) ;;; ret []).

End GoodreadsSource.

Module WorldCatSource.

Definition candidate (isbn : string) (item : WorldCatItem) : option BookData :=
  match wc_title item with
  | None => None
  | Some title_elem =>
      let author_elem := wc_author item in
      let publisher_elem := wc_publisher item in
      let book :=
        {| book_name := text_strip title_elem;
           isbn := isbn;
           authors := match author_elem with Some a => text_strip a | None => "" end;
           publisher := match publisher_elem with Some p => text_strip p | None => "" end;
           year := "";
           pages := 0;
           rating := zero_float;
           url := match href title_elem with
                  | Some h => if String.eqb h "" then ""
                              else "https://www.worldcat.org" ++ h
                  | None => ""
                  end;
           source := "worldcat" |} in
      Some match publisher_elem with
           | Some p =>
               match year_in_text p with
               | Some y => set_year y book
               | None => book
               end
           | None => book
           end
  end.

Fixpoint scrape (isbn : string) (selected : list WorldCatItem) (results : list BookData)
  : list BookData :=
  match selected with
  | [] => results
  | item :: rest =>
      match candidate isbn item with
      | None => scrape isbn rest results
      | Some b => scrape isbn rest (results ++ [b])
      end
  end.

Definition search : BookSource := fun book_name isbn =>
  try_except
    (response <- session_get_worldcat CONFIG.WORLDCAT_URL isbn ;;
     match response with
     | GetRaises e => raise e
     | Response status body =>
         if negb (status =? 200)%Z then ret []
         else
           soup <- lift body ;;
           ret (scrape isbn (slice_to CONFIG.MAX_RESULTS_PER_SOURCE soup) [])
     end)
    (fun e => print (MsgWorldCatError e) ;;; ret []).

End WorldCatSource.

(* ========================================================================= *)
(** ** Main enrichment class *)
(* ========================================================================= *)

Record BookEnricher : Type := {
  api_key : string;
  base_url : string;
  sources : list BookSource
}.

(** [BookEnricher.__init__] *)
Definition BookEnricher_init (key : string) : BookEnricher :=
  {| api_key := key;
     base_url := CONFIG.GOOGLE_BOOKS_API_URL;
     sources := [GoodreadsSource.search; WorldCatSource.search] |}.

(** Truth value of a Python int. *)
Definition truthy (n : Z) : bool := negb (n =? 0)%Z.

(** The [BookData] built from the first item of the Google reply. *)
Definition book_of_volume (isbn : string) (item : Item) (info : VolumeInfo) : BookData :=
  {| book_name := get_or "" (vi_title info);
     isbn := isbn;
     authors := join ", " (get_or [] (vi_authors info));
     publisher := get_or "" (vi_publisher info);
     year := str_slice_to 4 (get_or "" (vi_publishedDate info));
     pages := get_or 0%Z (vi_pageCount info);
     rating := get_or zero_float (vi_averageRating info);
     url := get_or "" (selfLink item);
     source := "google" |}.

Definition fetch_google_books (self : BookEnricher) (isbn : string) : M (option BookData) :=
  try_except
    (r <- session_get_google (base_url self) ("isbn:" ++ isbn ++ "&key=" ++ api_key self) ;;
     match r with
     | GetRaises e => raise e
     | Response status body =>
         if negb (status =? 200)%Z
         then print (MsgGoogleStatus status) ;;; ret None
         else
           data <- lift body ;;
           if negb (truthy (get_or 0%Z (totalItems data)))
           then ret None
           else
             match items data with
             | None => raise (KeyError "items")
             | Some [] => raise IndexError
             | Some (item :: _) =>
                 match volumeInfo item with
                 | None => raise (KeyError "volumeInfo")
                 | Some info => ret (Some (book_of_volume isbn item info))
                 end
             end
     end)
    (fun e => print (MsgGoogleError isbn e) ;;; ret None).

(** The fallback loop of [get_book_data]: each source in turn, its results
    appended to [all_results], then the rate-limit delay. *)
Fixpoint search_sources (srcs : list BookSource) (book_name : cell) (isbn : string)
                        (all_results : list BookData) : M (list BookData) :=
  match srcs with
  | [] => ret all_results
  | source :: rest =>
      results <- source book_name isbn ;;
      sleep CONFIG.RATE_LIMIT_DELAY ;;;
      search_sources rest book_name isbn (all_results ++ results)
  end.

Definition choice_name (b : BookData) : string :=
  book_name b ++ " by " ++ authors b ++ " (" ++ year b ++ ") - from " ++ source b.

Definition choices_of (all_results : list BookData) : list Choice :=
  map (fun b => {| name := choice_name b; value := Some b |}) all_results
  ++ [skip_choice].

Definition prompt_message (book_name : cell) : string :=
  "Choose the correct book for '" ++ str book_name ++ "'".

Definition get_book_data (self : BookEnricher) (book_name : cell) (isbn : string)
  : M (option BookData) :=
  book <- fetch_google_books self isbn ;;
  match book with
  | Some b => print (MsgFound (str book_name)) ;;; ret (Some b)
  | None =>
      print (MsgNoGoogle (str book_name) isbn) ;;;
      all_results <- search_sources (sources self) book_name isbn [] ;;
      match all_results with
      | [] => print (MsgNoResults (str book_name) isbn) ;;; ret None
      | _ :: _ =>
          answers <- inquirer_prompt (prompt_message book_name) (choices_of all_results) ;;
          ret match answers with
              | Some book_answer => book_answer
              | None => None
              end
      end
  end.

(** [series.isin(values)] for one element *)
Definition isin (x : string) (values : list string) : bool :=
  existsb (String.eqb x) values.

(** [df[col]] *)
Definition column (col : string) (df : DataFrame) : Outcome (list cell) :=
  if has_column col df
  then Ok (map (fun r => row_get col (snd r)) (rows df))
  else Raise (KeyError col).

(** [df_in[~df_in['isbn'].astype(str).isin(df_out['isbn'].astype(str))]] *)
Definition new_books_of (df_in df_out : DataFrame) : Outcome DataFrame :=
  match column "isbn" df_in with
  | Raise e => Raise e
  | Ok _ =>
      match column "isbn" df_out with
      | Raise e => Raise e
      | Ok out_isbn =>
          Ok {| columns := columns df_in;
                rows := filter (fun r => negb (isin (str (row_get "isbn" (snd r)))
                                                    (map str out_isbn)))
                               (rows df_in) |}
      end
  end.

(** [df.empty] *)
Definition frame_empty (df : DataFrame) : bool :=
  match columns df, rows df with
  | [], _ | _, [] => true
  | _, _ => false
  end.

(** One turn of the loop of [process_books]. *)
Definition process_row (self : BookEnricher) (total : nat) (indexed : nat * Row)
                       (results : list Row) : M (list Row) :=
  let '(idx, row) := indexed in
  print (MsgProcessing (idx + 1) total) ;;;
  book <- get_book_data self (row_get "book_name" row) (str (row_get "isbn" row)) ;;
  let results' := match book with
                  | Some b => results ++ [asdict b]
                  | None => results
                  end in
  sleep CONFIG.RATE_LIMIT_DELAY ;;;
  ret results'.

Fixpoint process_rows (self : BookEnricher) (total : nat) (new_rows : list (nat * Row))
                      (results : list Row) : M (list Row) :=
  match new_rows with
  | [] => ret results
  | indexed :: rest =>
      results' <- process_row self total indexed results ;;
      process_rows self total rest results'
  end.

(** The end of [process_books]: [if results: try: write ... except ...]. *)
Definition write_results (df_out : DataFrame) (results : list Row) (out_path : string)
  : M unit :=
  match results with
  | [] => ret tt
  | _ :: _ =>
      try_except
        (FileHandler.write_file (concat df_out (frame_of_records results)) out_path ;;;
         print (MsgAdded (List.length results)))
        (fun e => print (MsgErrorWriting e))
  end.

Definition process_books (self : BookEnricher) (in_path out_path : string) : M unit :=
  frames <- try_except
              (df_in <- FileHandler.read_file in_path ;;
               present <- path_exists out_path ;;
               df_out <- (if present then FileHandler.read_file out_path
                          else ret empty_frame) ;;
               ret (Some (df_in, df_out)))
              (fun e => print (MsgErrorReading e) ;;; ret None) ;;
  match frames with
  | None => ret tt
  | Some (df_in, df_out) =>
      new_books <- lift (new_books_of df_in df_out) ;;
      if frame_empty new_books
      then print MsgNoNewBooks ;;; ret tt
      else
        let total := List.length (rows new_books) in
        results <- process_rows self total (rows new_books) [] ;;
        write_results df_out results out_path
  end.

(* ========================================================================= *)
(** ** Vocabulary of the properties *)
(* ========================================================================= *)

Definition from_query (q src : string) (b : BookData) : Prop :=
  isbn b = q /\ source b = src.

Definition after_google (s : State) : State :=
  state_of (session_get_google "" "" s).
Definition after_goodreads (s : State) : State :=
  state_of (session_get_goodreads "" "" s).
Definition after_worldcat (s : State) : State :=
  state_of (session_get_worldcat "" "" s).

Definition google_get (self : BookEnricher) (q : string) : Event :=
  EvGet (base_url self) ("isbn:" ++ q ++ "&key=" ++ api_key self).
Definition goodreads_get (bn : cell) (q : string) : Event :=
  EvGet CONFIG.GOODREADS_URL (str bn ++ " " ++ q).
Definition worldcat_get (q : string) : Event :=
  EvGet CONFIG.WORLDCAT_URL q.

(** The events of a run of the primary adapter: its request, then prints. *)
Definition is_print (e : Event) : bool :=
  match e with EvPrint _ => true | _ => false end.

Definition candidates_of (r : Outcome (list BookData) * State * list Event) : list BookData :=
  match outcome_of r with
  | Ok l => l
  | Raise _ => []
  end.

Definition candidate_of (r : Outcome (option BookData) * State * list Event) : list BookData :=
  match outcome_of r with
  | Ok (Some b) => [b]
  | _ => []
  end.

(** The reply is a failure: the request raised an error, the status is not
    200 (which covers every non-success status), or the body could not be read
    or parsed. *)
Definition adapter_failure {B : Type} (r : Reply B) : bool :=
  match r with
  | GetRaises e => is_Exception e
  | Response status body =>
      negb (status =? 200)%Z
      || match body with
         | Raise e => is_Exception e
         | Ok _ => false
         end
  end.

(** A Google Books body that announces items and does not hold the first
    one's [volumeInfo]. *)
Definition google_malformed (data : ApiData) : bool :=
  truthy (get_or 0%Z (totalItems data))
  && match items data with
     | Some (item :: _) =>
         match volumeInfo item with
         | Some _ => false
         | None => true
         end
     | _ => true
     end.

(** A Goodreads row with a title and an author whose rating does not read as
    a float, or whose title has no [href]. *)
Definition goodreads_row_malformed (item : GoodreadsItem) : bool :=
  match gr_title item, gr_author item with
  | Some title_elem, Some _ =>
      match gr_rating item with
      | Some r => match as_float r with Some _ => false | None => true end
      | None => false
      end
      || match href title_elem with Some _ => false | None => true end
  | _, _ => false
  end.

(** The same, with the markup the adapter cannot make sense of counted as a
    failure. *)
Definition google_reply_fails (r : Reply ApiData) : bool :=
  adapter_failure r
  || match r with
     | Response _ (Ok data) => google_malformed data
     | _ => false
     end.

Definition goodreads_reply_fails (r : Reply (list GoodreadsItem)) : bool :=
  adapter_failure r
  || match r with
     | Response _ (Ok selected) =>
         existsb goodreads_row_malformed (slice_to CONFIG.MAX_RESULTS_PER_SOURCE selected)
     | _ => false
     end.

Definition next_google (s : State) : Reply ApiData := fst (next_reply (google (world s))).
Definition next_goodreads (s : State) : Reply (list GoodreadsItem) :=
  fst (next_reply (goodreads (world s))).
Definition next_worldcat (s : State) : Reply (list WorldCatItem) :=
  fst (next_reply (worldcat (world s))).


Definition is_prompt (e : Event) : bool :=
  match e with EvPrompt _ _ => true | _ => false end.

Definition is_sleep (e : Event) : bool :=
  match e with EvSleep _ => true | _ => false end.

Definition is_write (e : Event) : bool :=
  match e with EvWrite _ _ => true | _ => false end.

(** A request to one of the fallback endpoints. *)
Definition is_fallback_get (e : Event) : bool :=
  match e with
  | EvGet endpoint _ =>
      String.eqb endpoint CONFIG.GOODREADS_URL || String.eqb endpoint CONFIG.WORLDCAT_URL
  | _ => false
  end.


(** The identifiers of a table, as text. *)
Definition identifiers (df : DataFrame) : list string :=
  map (fun r => str (row_get "isbn" (snd r))) (rows df).

(** The pending set of the spec: the input rows whose identifier, as text, is
    not among the ledger's. *)
Definition pending (df_in df_out : DataFrame) : list (nat * Row) :=
  filter (fun r => negb (isin (str (row_get "isbn" (snd r))) (identifiers df_out)))
         (rows df_in).

Definition valid_frame (df : DataFrame) : bool :=
  forallb (fun col => has_column col df) FileHandler.required_columns.

(** What [get_book_data] decided for each pending row of a run, in order, up
    to the first one that raised. *)
Fixpoint decisions (self : BookEnricher) (new_rows : list (nat * Row)) (s : State)
  : list (option BookData) :=
  match new_rows with
  | [] => []
  | (_, row) :: rest =>
      match get_book_data self (row_get "book_name" row) (str (row_get "isbn" row)) s with
      | (Ok d, s1, _) => d :: decisions self rest s1
      | (Raise _, _, _) => []
      end
  end.

Fixpoint resolved (ds : list (option BookData)) : list BookData :=
  match ds with
  | [] => []
  | Some b :: ds' => b :: resolved ds'
  | None :: ds' => resolved ds'
  end.

(** The ledger held by a file. *)
Definition ledger_at (s : State) (path : string) : option DataFrame :=
  match disk s path with
  | Some (Table df) => Some df
  | _ => None
  end.

(** A computation that leaves the disk alone: it neither changes it, nor
    consumes a scripted write, nor performs a write event. *)
Definition keeps_disk {A : Type} (m : M A) : Prop :=
  forall s o s' ev,
    m s = (o, s', ev) ->
    disk s' = disk s /\
    disk_writes (world s') = disk_writes (world s) /\
    forallb (fun e => negb (is_write e)) ev = true.

(** The identifier of an input row, as text. *)
Definition row_id (r : nat * Row) : string := str (row_get "isbn" (snd r)).

From Stdlib Require DecimalZ DecimalPos.

(* ========================================================================= *)
(** ** Further vocabulary *)
(* ========================================================================= *)

(** What [FileHandler.read_file] makes of a path: the table it holds, when it
    holds one that has the required columns. *)
Definition readable (s : State) (path : string) : option DataFrame :=
  match ledger_at s path with
  | Some df => if valid_frame df then Some df else None
  | None => None
  end.

(** A computation out of which only [BaseException]s come. *)
Definition raises_only_base {A : Type} (m : M A) : Prop :=
  forall s e s' ev, m s = (Raise e, s', ev) -> is_Exception e = false.

Definition is_get (e : Event) : bool :=
  match e with EvGet _ _ => true | _ => false end.

(** How many events of a kind a run performed. *)
Definition count (kind : Event -> bool) (ev : list Event) : nat :=
  List.length (filter kind ev).

(** A computation that performs at most [g] requests and [p] prompts. *)
Definition at_most (g p : nat) {A : Type} (m : M A) : Prop :=
  forall s o s' ev, m s = (o, s', ev) -> count is_get ev <= g /\ count is_prompt ev <= p.

(* ========================================================================= *)
(** ** Entry point *)
(* ========================================================================= *)












(** A computation that performs no event of a kind. *)
Definition never (kind : Event -> bool) {A : Type} (m : M A) : Prop :=
  forall s o s' ev, m s = (o, s', ev) -> filter kind ev = [].


(* ========================================================================= *)
(** ** Scenarios *)
(* ========================================================================= *)

Module Scenario.

Definition enricher : BookEnricher := BookEnricher_init "KEY".

Definition title_1984 : cell := CStr "1984".
Definition isbn_1984 : string := "9780451524935".

Definition books : DataFrame :=
  {| columns := ["book_name"; "isbn"];
     rows := [(0, [("book_name", title_1984); ("isbn", CInt 9780451524935)])] |}.

Definition gatsby : BookData :=
  {| book_name := "The Great Gatsby"; isbn := "9780743273565";
     authors := "F. Scott Fitzgerald"; publisher := "Scribner"; year := "2004";
     pages := 180; rating := PyFloat "3.9"; url := ""; source := "google" |}.

(** A ledger written by an earlier run. *)
Definition enriched : DataFrame := frame_of_records [asdict gatsby].

Definition disk_of (in_file out_file : option File) : Disk :=
  fun p =>
    if String.eqb p "books.csv" then in_file
    else if String.eqb p "enriched_books.csv" then out_file
    else None.

Definition orwell : VolumeInfo :=
  {| vi_title := Some "1984"; vi_authors := Some ["George Orwell"];
     vi_publisher := Some "Signet"; vi_publishedDate := Some "1949-06-08";
     vi_pageCount := Some 328%Z; vi_averageRating := None |}.

Definition google_hit : Reply ApiData :=
  Response 200 (Ok {| totalItems := Some 1%Z;
                      items := Some [{| volumeInfo := Some orwell; selfLink := None |}] |}).

Definition google_miss : Reply ApiData :=
  Response 200 (Ok {| totalItems := Some 0%Z; items := None |}).

Definition link (text target : string) : Tag :=
  {| text_strip := text; href := Some target; as_float := None; year_in_text := None |}.

Definition words (text : string) : Tag :=
  {| text_strip := text; href := None; as_float := None; year_in_text := None |}.

Definition goodreads_row (title : string) : GoodreadsItem :=
  {| gr_title := Some (link title "/book/show/1");
     gr_author := Some (words "George Orwell");
     gr_published := Some "1949";
     gr_rating := None |}.

Definition worldcat_entry (title : string) : WorldCatItem :=
  {| wc_title := Some (link title "/oclc/1");
     wc_author := None;
     wc_publisher := Some {| text_strip := "Signet, 1950"; href := None;
                             as_float := None; year_in_text := Some "1950" |} |}.

Definition no_rows {B : Type} : Reply (list B) := Response 200 (Ok []).

Definition state_of_world (w : World) (out_file : option File) : State :=
  {| world := w; disk := disk_of (Some (Table books)) out_file |}.

(** Google Books answers at once. *)
Definition primary_hit : State :=
  state_of_world
    {| google := [google_hit]; goodreads := [no_rows]; worldcat := [no_rows];
       operator := []; disk_writes := [true] |}
    (Some (Table enriched)).

(** Nothing anywhere. *)
Definition all_miss : State :=
  state_of_world
    {| google := [google_miss]; goodreads := [no_rows]; worldcat := [no_rows];
       operator := []; disk_writes := [true] |}
    (Some (Table enriched)).

(** Every endpoint fails in its own way. *)
Definition all_fail : State :=
  state_of_world
    {| google := [Response 200 (Raise JSONDecodeError)];
       goodreads := [GetRaises ClientError];
       worldcat := [Response 503 (Ok [])];
       operator := []; disk_writes := [] |}
    (Some (Table enriched)).

(** Replies that arrive and do not have the expected shape: Google Books
    announces an item and sends none; the second Goodreads row has a title
    that links nowhere. *)
Definition markup_changed : State :=
  state_of_world
    {| google := [Response 200 (Ok {| totalItems := Some 1%Z; items := None |})];
       goodreads := [Response 200 (Ok [goodreads_row "1984";
                                       {| gr_title := Some (words "1984");
                                          gr_author := Some (words "George Orwell");
                                          gr_published := None;
                                          gr_rating := None |}])];
       worldcat := [no_rows];
       operator := []; disk_writes := [] |}
    (Some (Table enriched)).

(** Google Books misses, Goodreads offers four rows, WorldCat two entries,
    and the operator picks the second choice. *)
Definition fallback : State :=
  state_of_world
    {| google := [google_miss];
       goodreads := [Response 200 (Ok [goodreads_row "Nineteen Eighty-Four";
                                        goodreads_row "1984";
                                        goodreads_row "1984 (Signet Classics)";
                                        goodreads_row "Animal Farm / 1984"])];
       worldcat := [Response 200 (Ok [worldcat_entry "1984"; worldcat_entry "1984 : a novel"])];
       operator := [Selected 1]; disk_writes := [true] |}
    (Some (Table enriched)).


(** The output file does not exist yet. *)
Definition first_run : State :=
  state_of_world
    {| google := [google_hit]; goodreads := []; worldcat := [];
       operator := []; disk_writes := [true] |}
    None.




(** The record Google Books gives for the query. *)
Definition orwell_book : BookData :=
  book_of_volume isbn_1984 {| volumeInfo := Some orwell; selfLink := None |} orwell.




End Scenario.

(* ========================================================================= *)
(** ** Further scenarios *)
(* ========================================================================= *)

Module Scenario2.

(** Google Books answers for the first of two books; the operator interrupts
    the request for the second. *)
Definition two_books : DataFrame :=
  {| columns := ["book_name"; "isbn"];
     rows := [(0, [("book_name", Scenario.title_1984); ("isbn", CInt 9780451524935)]);
              (1, [("book_name", CStr "Animal Farm"); ("isbn", CInt 9780451526342)])] |}.

Definition interrupted : State :=
  {| world := {| google := [Scenario.google_hit; GetRaises KeyboardInterrupt];
                 goodreads := []; worldcat := [];
                 operator := []; disk_writes := [true] |};
     disk := Scenario.disk_of (Some (Table two_books)) (Some (Table Scenario.enriched)) |}.


(** A page whose first three rows are headers without a title, followed by a
    complete row. *)
Definition header_row : GoodreadsItem :=
  {| gr_title := None; gr_author := None; gr_published := None; gr_rating := None |}.

Definition headers_first : State :=
  Scenario.state_of_world
    {| google := [];
       goodreads := [Response 200 (Ok ([header_row; header_row; header_row]
                                       ++ [Scenario.goodreads_row "1984"]))];
       worldcat := []; operator := []; disk_writes := [] |}
    (Some (Table Scenario.enriched)).

End Scenario2.
(* ========================================================================= *)
(** * Properties *)
(* ========================================================================= *)

(** ** Running binds and handlers *)

Lemma bind_ok {A B : Type} (m : M A) (f : A -> M B) s a s1 ev1 o s2 ev2 :
  m s = (Ok a, s1, ev1) ->
  f a s1 = (o, s2, ev2) ->
  bind m f s = (o, s2, ev1 ++ ev2).
Proof.
  intros Hm Hf. unfold bind. rewrite Hm, Hf. reflexivity.
Qed.

Lemma bind_raise {A B : Type} (m : M A) (f : A -> M B) s e s1 ev1 :
  m s = (Raise e, s1, ev1) ->
  bind m f s = (Raise e, s1, ev1).
Proof.
  intros Hm. unfold bind. rewrite Hm. reflexivity.
Qed.

Lemma bind_ok_inv {A B : Type} (m : M A) (f : A -> M B) s b s2 evs :
  bind m f s = (Ok b, s2, evs) ->
  exists a s1 ev1 ev2,
    m s = (Ok a, s1, ev1) /\ f a s1 = (Ok b, s2, ev2) /\ evs = ev1 ++ ev2.
Proof.
  unfold bind. destruct (m s) as [[[a | e] s1] ev1]; [| discriminate].
  destruct (f a s1) as [[o s2'] ev2] eqn:Hf. intros H. inversion H; subst.
  exists a, s1, ev1, ev2. auto.
Qed.

Lemma try_except_ok {A : Type} (body : M A) (handler : exn -> M A) s a s1 ev1 :
  body s = (Ok a, s1, ev1) ->
  try_except body handler s = (Ok a, s1, ev1).
Proof.
  intros Hb. unfold try_except. rewrite Hb. reflexivity.
Qed.

Lemma try_except_caught {A : Type} (body : M A) (handler : exn -> M A)
      s e s1 ev1 o s2 ev2 :
  body s = (Raise e, s1, ev1) ->
  is_Exception e = true ->
  handler e s1 = (o, s2, ev2) ->
  try_except body handler s = (o, s2, ev1 ++ ev2).
Proof.
  intros Hb He Hh. unfold try_except. rewrite Hb, He, Hh. reflexivity.
Qed.

Lemma try_except_through {A : Type} (body : M A) (handler : exn -> M A) s e s1 ev1 :
  body s = (Raise e, s1, ev1) ->
  is_Exception e = false ->
  try_except body handler s = (Raise e, s1, ev1).
Proof.
  intros Hb He. unfold try_except. rewrite Hb, He. reflexivity.
Qed.

Lemma prints_are_silent (P : Event -> bool) prints :
  (forall m, P (EvPrint m) = true) ->
  forallb is_print prints = true ->
  forallb P prints = true.
Proof.
  intros HP. induction prints as [| [] prints IH]; simpl; intros H; try discriminate; auto.
  rewrite HP. auto.
Qed.

(** ** The scraping loops *)


Lemma goodreads_candidate_from q item b :
  GoodreadsSource.candidate q item = Ok (Some b) -> from_query q "goodreads" b.
Proof.
  unfold GoodreadsSource.candidate.
  destruct (gr_title item) as [t |]; [| discriminate].
  destruct (gr_author item) as [a |]; [| discriminate].
  destruct (gr_rating item) as [r |].
  - destruct (as_float r); [| discriminate].
    destruct (href t); [| discriminate].
    intros H; inversion H; subst. split; reflexivity.
  - destruct (href t); [| discriminate].
    intros H; inversion H; subst. split; reflexivity.
Qed.

Lemma goodreads_scrape_spec q selected : forall results l,
  GoodreadsSource.scrape q selected results = Ok l ->
  exists added,
    l = results ++ added /\
    List.length added <= List.length selected /\
    Forall (from_query q "goodreads") added.
Proof.
  induction selected as [| item rest IH]; intros results l H; simpl in H.
  - inversion H; subst. exists []. rewrite app_nil_r. auto.
  - destruct (GoodreadsSource.candidate q item) as [[b |] | e] eqn:Hc; [| | discriminate].
    + apply IH in H. destruct H as (added & -> & Hlen & Hall).
      exists (b :: added). rewrite <- app_assoc. simpl. repeat split; [lia |].
      constructor; [eapply goodreads_candidate_from; eassumption | assumption].
    + apply IH in H. destruct H as (added & -> & Hlen & Hall).
      exists added. simpl. repeat split; [lia | assumption].
Qed.

Lemma worldcat_candidate_from q item b :
  WorldCatSource.candidate q item = Some b -> from_query q "worldcat" b.
Proof.
  unfold WorldCatSource.candidate.
  destruct (wc_title item) as [t |]; [| discriminate].
  intros H; inversion H; subst; clear H.
  destruct (wc_publisher item) as [p |]; [destruct (year_in_text p) |];
    split; reflexivity.
Qed.

Lemma worldcat_scrape_spec q selected : forall results,
  exists added,
    WorldCatSource.scrape q selected results = results ++ added /\
    List.length added <= List.length selected /\
    Forall (from_query q "worldcat") added.
Proof.
  induction selected as [| item rest IH]; intros results; simpl.
  - exists []. rewrite app_nil_r. auto.
  - destruct (WorldCatSource.candidate q item) as [b |] eqn:Hc.
    + destruct (IH (results ++ [b])) as (added & -> & Hlen & Hall).
      exists (b :: added). rewrite <- app_assoc. simpl. repeat split; [lia |].
      constructor; [eapply worldcat_candidate_from; eassumption | assumption].
    + destruct (IH results) as (added & -> & Hlen & Hall).
      exists added. repeat split; [lia | assumption].
Qed.

Lemma slice_to_length {A : Type} (n : nat) (xs : list A) :
  List.length (slice_to n xs) <= n.
Proof.
  unfold slice_to. rewrite length_firstn. lia.
Qed.

(** ** One adapter call, by cases on what the endpoint does *)


#[local] Arguments slice_to {A} n xs : simpl never.
#[local] Arguments str c : simpl never.

Ltac run_get script :=
  unfold after_google, after_goodreads, after_worldcat, state_of;
  unfold try_except, bind, session_get_google, session_get_goodreads,
    session_get_worldcat, next_reply;
  destruct script as [| [e | status [body | e]] rest]; cbn.

Lemma goodreads_search_cases bn q s :
  (exists l,
      GoodreadsSource.search bn q s = (Ok l, after_goodreads s, [goodreads_get bn q]) /\
      List.length l <= CONFIG.MAX_RESULTS_PER_SOURCE /\
      Forall (from_query q "goodreads") l)
  \/ (exists e,
      is_Exception e = true /\
      GoodreadsSource.search bn q s =
        (Ok [], after_goodreads s, [goodreads_get bn q; EvPrint (MsgGoodreadsError e)]))
  \/ (exists e,
      is_Exception e = false /\
      GoodreadsSource.search bn q s = (Raise e, after_goodreads s, [goodreads_get bn q])).
Proof.
  unfold GoodreadsSource.search, goodreads_get.
  run_get (goodreads (world s)).
  - right; left. exists ClientError. split; reflexivity.
  - destruct (is_Exception e) eqn:He; [right; left | right; right];
      exists e; split; auto.
  - destruct (status =? 200)%Z; cbn.
    + destruct (GoodreadsSource.scrape q (slice_to CONFIG.MAX_RESULTS_PER_SOURCE body) [])
        as [l | e] eqn:Hs; cbn.
      * left. exists l. split; [reflexivity |].
        apply goodreads_scrape_spec in Hs. destruct Hs as (added & -> & Hlen & Hall).
        simpl. split; [| assumption].
        pose proof (slice_to_length CONFIG.MAX_RESULTS_PER_SOURCE body). lia.
      * destruct (is_Exception e) eqn:He; [right; left | right; right];
          exists e; split; auto.
    + left. exists []. repeat split; [cbn; lia | constructor].
  - destruct (status =? 200)%Z; cbn.
    + destruct (is_Exception e) eqn:He; [right; left | right; right];
        exists e; split; auto.
    + left. exists []. repeat split; [cbn; lia | constructor].
Qed.

Lemma worldcat_search_cases bn q s :
  (exists l,
      WorldCatSource.search bn q s = (Ok l, after_worldcat s, [worldcat_get q]) /\
      List.length l <= CONFIG.MAX_RESULTS_PER_SOURCE /\
      Forall (from_query q "worldcat") l)
  \/ (exists e,
      is_Exception e = true /\
      WorldCatSource.search bn q s =
        (Ok [], after_worldcat s, [worldcat_get q; EvPrint (MsgWorldCatError e)]))
  \/ (exists e,
      is_Exception e = false /\
      WorldCatSource.search bn q s = (Raise e, after_worldcat s, [worldcat_get q])).
Proof.
  unfold WorldCatSource.search, worldcat_get.
  run_get (worldcat (world s)).
  - right; left. exists ClientError. split; reflexivity.
  - destruct (is_Exception e) eqn:He; [right; left | right; right];
      exists e; split; auto.
  - destruct (status =? 200)%Z; cbn.
    + left. eexists. split; [reflexivity |].
      destruct (worldcat_scrape_spec q (slice_to CONFIG.MAX_RESULTS_PER_SOURCE body) [])
        as (added & -> & Hlen & Hall).
      simpl. split; [| assumption].
      pose proof (slice_to_length CONFIG.MAX_RESULTS_PER_SOURCE body). lia.
    + left. exists []. repeat split; [cbn; lia | constructor].
  - destruct (status =? 200)%Z; cbn.
    + destruct (is_Exception e) eqn:He; [right; left | right; right];
        exists e; split; auto.
    + left. exists []. repeat split; [cbn; lia | constructor].
Qed.


Lemma fetch_google_books_cases self q s :
  exists o prints,
    fetch_google_books self q s = (o, after_google s, google_get self q :: prints) /\
    forallb is_print prints = true /\
    match o with
    | Ok (Some b) => isbn b = q /\ source b = "google"
    | Ok None => True
    | Raise e => is_Exception e = false
    end.
Proof.
  unfold fetch_google_books, google_get.
  run_get (google (world s)).
  - eexists (Ok None), [_]. repeat split.
  - destruct (is_Exception e) eqn:He.
    + eexists (Ok None), [_]. repeat split.
    + eexists (Raise e), []. repeat split. assumption.
  - destruct (status =? 200)%Z; cbn.
    + destruct (truthy (get_or 0%Z (totalItems body))); cbn.
      * destruct (items body) as [[| item its] |]; cbn;
          try (eexists (Ok None), [_]; repeat split; fail).
        destruct (volumeInfo item) as [info |]; cbn.
        -- eexists (Ok (Some _)), []. repeat split.
        -- eexists (Ok None), [_]. repeat split.
      * eexists (Ok None), []. repeat split.
    + eexists (Ok None), [_]. repeat split.
  - destruct (status =? 200)%Z; cbn.
    + destruct (is_Exception e) eqn:He.
      * eexists (Ok None), [_]. repeat split.
      * eexists (Raise e), []. repeat split. assumption.
    + eexists (Ok None), [_]. repeat split.
Qed.

(** ** Candidates carry the query's identifier *)


Lemma from_query_isbn q src l :
  Forall (from_query q src) l -> Forall (fun b => isbn b = q) l.
Proof.
  intros H. eapply Forall_impl; [| exact H]. intros b [Hb _]. exact Hb.
Qed.

Lemma from_query_source q src l :
  Forall (from_query q src) l -> Forall (fun b => source b = src) l.
Proof.
  intros H. eapply Forall_impl; [| exact H]. intros b [_ Hb]. exact Hb.
Qed.

(** C9.  Every candidate produced by an adapter (Google Books, Goodreads,
    WorldCat) carries in its [isbn] field the identifier the adapter was
    called with, whatever the endpoint replied. *)
Theorem candidates_carry_query_isbn (self : BookEnricher) (bn : cell) (q : string) (s : State) :
  Forall (fun b => isbn b = q) (candidate_of (fetch_google_books self q s)) /\
  Forall (fun b => isbn b = q) (candidates_of (GoodreadsSource.search bn q s)) /\
  Forall (fun b => isbn b = q) (candidates_of (WorldCatSource.search bn q s)).
Proof.
  split; [| split].
  - destruct (fetch_google_books_cases self q s) as (o & prints & Hrun & _ & Ho).
    unfold candidate_of, outcome_of. rewrite Hrun. simpl.
    destruct o as [[b |] | e]; constructor; [apply Ho | constructor].
  - unfold candidates_of, outcome_of.
    destruct (goodreads_search_cases bn q s)
      as [(l & Hrun & _ & Hall) | [(e & _ & Hrun) | (e & _ & Hrun)]];
      rewrite Hrun; simpl; [eapply from_query_isbn; eassumption | constructor | constructor].
  - unfold candidates_of, outcome_of.
    destruct (worldcat_search_cases bn q s)
      as [(l & Hrun & _ & Hall) | [(e & _ & Hrun) | (e & _ & Hrun)]];
      rewrite Hrun; simpl; [eapply from_query_isbn; eassumption | constructor | constructor].
Qed.

(** ** Failure isolation at the adapter boundary *)


Lemma goodreads_scrape_malformed q selected : forall results,
  existsb goodreads_row_malformed selected = true ->
  exists e, is_Exception e = true /\ GoodreadsSource.scrape q selected results = Raise e.
Proof.
  induction selected as [| item rest IH]; intros results H; simpl in H; [discriminate |].
  cbn [GoodreadsSource.scrape].
  unfold goodreads_row_malformed, GoodreadsSource.candidate in *.
  destruct (gr_title item) as [t |]; [destruct (gr_author item) as [a |] |];
    try (apply IH; exact H).
  destruct (gr_rating item) as [r |]; [destruct (as_float r) |].
  - destruct (href t); [apply IH; exact H | exists (KeyError "href"); auto].
  - exists ValueError. auto.
  - destruct (href t); [apply IH; exact H | exists (KeyError "href"); auto].
Qed.

(** C4.  A transport error, a status other than 200, a body that cannot be
    read or markup the adapter cannot make sense of makes the adapter return
    its empty result ([[]] for Goodreads and WorldCat, [None] for Google
    Books); and whatever the endpoint does, no exception of class [Exception]
    leaves an adapter. *)
Theorem adapter_failures_yield_empty (self : BookEnricher) (bn : cell) (q : string) (s : State) :
  (google_reply_fails (next_google s) = true ->
   outcome_of (fetch_google_books self q s) = Ok None) /\
  (goodreads_reply_fails (next_goodreads s) = true ->
   outcome_of (GoodreadsSource.search bn q s) = Ok []) /\
  (adapter_failure (next_worldcat s) = true ->
   outcome_of (WorldCatSource.search bn q s) = Ok []) /\
  (forall e, outcome_of (fetch_google_books self q s) = Raise e -> is_Exception e = false) /\
  (forall e, outcome_of (GoodreadsSource.search bn q s) = Raise e -> is_Exception e = false) /\
  (forall e, outcome_of (WorldCatSource.search bn q s) = Raise e -> is_Exception e = false).
Proof.
  repeat split.
  - unfold next_google, google_reply_fails, google_malformed, fetch_google_books, outcome_of.
    run_get (google (world s)); try reflexivity.
    + rewrite orb_false_r. intros ->. reflexivity.
    + destruct (status =? 200)%Z; cbn; [| reflexivity].
      destruct (truthy (get_or 0%Z (totalItems body))); cbn; [| reflexivity].
      destruct (items body) as [[| item its] |]; cbn; try reflexivity.
      destruct (volumeInfo item); cbn; [discriminate | reflexivity].
    + destruct (status =? 200)%Z; cbn; [rewrite orb_false_r; intros -> |]; reflexivity.
  - unfold next_goodreads, goodreads_reply_fails, GoodreadsSource.search, outcome_of.
    run_get (goodreads (world s)); try reflexivity.
    + rewrite orb_false_r. intros ->. reflexivity.
    + destruct (status =? 200)%Z; cbn; [| reflexivity].
      intros H. destruct (goodreads_scrape_malformed q _ [] H) as (e & He & ->).
      cbn. rewrite He. reflexivity.
    + destruct (status =? 200)%Z; cbn; [rewrite orb_false_r; intros -> |]; reflexivity.
  - unfold next_worldcat, WorldCatSource.search, outcome_of.
    run_get (worldcat (world s)); try reflexivity.
    + intros ->. reflexivity.
    + destruct (status =? 200)%Z; cbn; [discriminate | reflexivity].
    + destruct (status =? 200)%Z; cbn; [intros -> |]; reflexivity.
  - intros e. destruct (fetch_google_books_cases self q s) as (o & prints & Hrun & _ & Ho).
    unfold outcome_of. rewrite Hrun. simpl. intros ->. exact Ho.
  - intros e. unfold outcome_of.
    destruct (goodreads_search_cases bn q s)
      as [(l & Hrun & _) | [(e' & _ & Hrun) | (e' & He & Hrun)]];
      rewrite Hrun; simpl; intros H; inversion H; subst; assumption.
  - intros e. unfold outcome_of.
    destruct (worldcat_search_cases bn q s)
      as [(l & Hrun & _) | [(e' & _ & Hrun) | (e' & He & Hrun)]];
      rewrite Hrun; simpl; intros H; inversion H; subst; assumption.
Qed.

Lemma adapter_failures_yield_empty_witness :
  (outcome_of (fetch_google_books Scenario.enricher Scenario.isbn_1984 Scenario.all_fail)
     = Ok None /\
   outcome_of (GoodreadsSource.search Scenario.title_1984 Scenario.isbn_1984 Scenario.all_fail)
     = Ok [] /\
   outcome_of (WorldCatSource.search Scenario.title_1984 Scenario.isbn_1984 Scenario.all_fail)
     = Ok []) /\
  (outcome_of (fetch_google_books Scenario.enricher Scenario.isbn_1984
                 Scenario.markup_changed) = Ok None /\
   outcome_of (GoodreadsSource.search Scenario.title_1984 Scenario.isbn_1984
                 Scenario.markup_changed) = Ok []).
Proof.
  destruct (adapter_failures_yield_empty Scenario.enricher Scenario.title_1984
              Scenario.isbn_1984 Scenario.all_fail) as (Hg & Hr & Hw & _).
  destruct (adapter_failures_yield_empty Scenario.enricher Scenario.title_1984
              Scenario.isbn_1984 Scenario.markup_changed) as (Hg' & Hr' & _).
  split; [split; [apply Hg | split; [apply Hr | apply Hw]] | split; [apply Hg' | apply Hr']];
    reflexivity.
Defined.

(** ** The fallback loop *)

Lemma goodreads_search_ok bn q s l s' ev :
  GoodreadsSource.search bn q s = (Ok l, s', ev) ->
  List.length l <= CONFIG.MAX_RESULTS_PER_SOURCE /\
  Forall (from_query q "goodreads") l /\
  s' = after_goodreads s /\
  exists prints, ev = goodreads_get bn q :: prints /\ forallb is_print prints = true.
Proof.
  intros H.
  destruct (goodreads_search_cases bn q s)
    as [(l' & Hrun & Hlen & Hall) | [(e & _ & Hrun) | (e & _ & Hrun)]];
    rewrite Hrun in H; inversion H; subst.
  - repeat split; auto. exists []. auto.
  - repeat split; [cbn; lia | constructor |]. eexists [_]. auto.
Qed.

Lemma worldcat_search_ok bn q s l s' ev :
  WorldCatSource.search bn q s = (Ok l, s', ev) ->
  List.length l <= CONFIG.MAX_RESULTS_PER_SOURCE /\
  Forall (from_query q "worldcat") l /\
  s' = after_worldcat s /\
  exists prints, ev = worldcat_get q :: prints /\ forallb is_print prints = true.
Proof.
  intros H.
  destruct (worldcat_search_cases bn q s)
    as [(l' & Hrun & Hlen & Hall) | [(e & _ & Hrun) | (e & _ & Hrun)]];
    rewrite Hrun in H; inversion H; subst.
  - repeat split; auto. exists []. auto.
  - repeat split; [cbn; lia | constructor |]. eexists [_]. auto.
Qed.

Lemma fallback_search_run key bn q s gr s1 evg wc s2 evw :
  GoodreadsSource.search bn q s = (Ok gr, s1, evg) ->
  WorldCatSource.search bn q s1 = (Ok wc, s2, evw) ->
  search_sources (sources (BookEnricher_init key)) bn q [] s =
    (Ok (gr ++ wc), s2,
     evg ++ [EvSleep CONFIG.RATE_LIMIT_DELAY] ++ evw ++ [EvSleep CONFIG.RATE_LIMIT_DELAY]).
Proof.
  intros Hg Hw. simpl. unfold bind, sleep, emit, ret.
  rewrite Hg, Hw. simpl. rewrite ?app_nil_r. reflexivity.
Qed.

Lemma fallback_search_inv key bn q s l s2 evs :
  search_sources (sources (BookEnricher_init key)) bn q [] s = (Ok l, s2, evs) ->
  exists gr s1 evg wc evw,
    GoodreadsSource.search bn q s = (Ok gr, s1, evg) /\
    WorldCatSource.search bn q s1 = (Ok wc, s2, evw) /\
    l = gr ++ wc /\
    evs = evg ++ [EvSleep CONFIG.RATE_LIMIT_DELAY] ++ evw ++ [EvSleep CONFIG.RATE_LIMIT_DELAY].
Proof.
  simpl. intros H.
  apply bind_ok_inv in H. destruct H as (gr & s1 & evg & ev' & Hg & H & ->).
  apply bind_ok_inv in H. destruct H as ([] & s1' & evs1 & ev'' & Hs1 & H & ->).
  inversion Hs1; subst; clear Hs1.
  apply bind_ok_inv in H. destruct H as (wc & s2' & evw & ev' & Hw & H & ->).
  apply bind_ok_inv in H. destruct H as ([] & s2'' & evs2 & ev'' & Hs2 & H & ->).
  inversion Hs2; subst; clear Hs2.
  inversion H; subst; clear H.
  exists gr, s1', evg, wc, evw. rewrite app_nil_r. auto.
Qed.

(** C5.  When the fallback search runs, the aggregated sequence is the
    Goodreads candidates followed by the WorldCat candidates, each list in the
    order its adapter returned it, and each adapter contributes at most
    [MAX_RESULTS_PER_SOURCE] = 3 candidates. *)
Theorem aggregator_bounded_and_ordered
        (key : string) (bn : cell) (q : string) (s s1 s2 : State)
        (gr wc : list BookData) (evg evw : list Event) :
  GoodreadsSource.search bn q s = (Ok gr, s1, evg) ->
  WorldCatSource.search bn q s1 = (Ok wc, s2, evw) ->
  outcome_of (search_sources (sources (BookEnricher_init key)) bn q [] s) = Ok (gr ++ wc) /\
  CONFIG.MAX_RESULTS_PER_SOURCE = 3 /\
  List.length gr <= CONFIG.MAX_RESULTS_PER_SOURCE /\
  List.length wc <= CONFIG.MAX_RESULTS_PER_SOURCE /\
  Forall (fun b => source b = "goodreads") gr /\
  Forall (fun b => source b = "worldcat") wc.
Proof.
  intros Hg Hw.
  rewrite (fallback_search_run key _ _ _ _ _ _ _ _ _ Hg Hw).
  apply goodreads_search_ok in Hg. destruct Hg as (Hlg & Hag & _).
  apply worldcat_search_ok in Hw. destruct Hw as (Hlw & Haw & _).
  repeat split; auto; eapply from_query_source; eassumption.
Qed.

Lemma aggregator_bounded_and_ordered_witness :
  outcome_of (search_sources (sources (BookEnricher_init "KEY"))
                Scenario.title_1984 Scenario.isbn_1984 []
                (after_google Scenario.fallback))
  = Ok (candidates_of (GoodreadsSource.search Scenario.title_1984 Scenario.isbn_1984
                         (after_google Scenario.fallback))
        ++ candidates_of (WorldCatSource.search Scenario.title_1984 Scenario.isbn_1984
                            (after_goodreads (after_google Scenario.fallback)))).
Proof.
  refine (proj1 (aggregator_bounded_and_ordered "KEY" Scenario.title_1984 Scenario.isbn_1984
                   (after_google Scenario.fallback) _ _ _ _ _ _ _ _));
    vm_compute; reflexivity.
Defined.

(** C8.  When the fallback search runs, each adapter's request is followed by
    exactly one rate-limit delay, which precedes the next adapter's request;
    the delay after the last adapter is performed too. *)
Theorem one_delay_after_each_fallback
        (key : string) (bn : cell) (q : string) (s s1 s2 : State)
        (gr wc : list BookData) (evg evw : list Event) :
  GoodreadsSource.search bn q s = (Ok gr, s1, evg) ->
  WorldCatSource.search bn q s1 = (Ok wc, s2, evw) ->
  let events := events_of (search_sources (sources (BookEnricher_init key)) bn q [] s) in
  (exists pg pw,
      forallb is_print pg = true /\ forallb is_print pw = true /\
      events = goodreads_get bn q :: pg ++
               EvSleep CONFIG.RATE_LIMIT_DELAY ::
               worldcat_get q :: pw ++
               [EvSleep CONFIG.RATE_LIMIT_DELAY]) /\
  List.length (filter is_sleep events) = List.length (sources (BookEnricher_init key)).
Proof.
  intros Hg Hw events. subst events.
  rewrite (fallback_search_run key _ _ _ _ _ _ _ _ _ Hg Hw).
  apply goodreads_search_ok in Hg. destruct Hg as (_ & _ & _ & pg & -> & Hpg).
  apply worldcat_search_ok in Hw. destruct Hw as (_ & _ & _ & pw & -> & Hpw).
  unfold events_of. cbn [snd].
  assert (Hnone : forall ps, forallb is_print ps = true -> filter is_sleep ps = []).
  { induction ps as [| [] ps IH]; simpl; intros H; try discriminate; auto. }
  split.
  - exists pg, pw. repeat split; auto.
  - cbn. rewrite filter_app, (Hnone pg Hpg). cbn.
    rewrite filter_app, (Hnone pw Hpw). reflexivity.
Qed.

Lemma one_delay_after_each_fallback_witness :
  List.length
    (filter is_sleep
       (events_of (search_sources (sources (BookEnricher_init "KEY"))
                     Scenario.title_1984 Scenario.isbn_1984 []
                     (after_google Scenario.fallback))))
  = 2.
Proof.
  refine (proj2 (one_delay_after_each_fallback "KEY" Scenario.title_1984 Scenario.isbn_1984
                   (after_google Scenario.fallback) _ _ _ _ _ _ _ _));
    vm_compute; reflexivity.
Defined.

(** ** The orchestrator *)

Lemma after_google_frame s :
  goodreads (world (after_google s)) = goodreads (world s) /\
  worldcat (world (after_google s)) = worldcat (world s) /\
  operator (world (after_google s)) = operator (world s) /\
  disk_writes (world (after_google s)) = disk_writes (world s) /\
  disk (after_google s) = disk s.
Proof.
  unfold after_google, state_of, session_get_google, next_reply.
  destruct (google (world s)); cbn; auto.
Qed.

Lemma get_book_data_hit self bn q s b s1 ev1 :
  fetch_google_books self q s = (Ok (Some b), s1, ev1) ->
  get_book_data self bn q s = (Ok (Some b), s1, ev1 ++ [EvPrint (MsgFound (str bn))]).
Proof.
  intros H. unfold get_book_data, bind. rewrite H. reflexivity.
Qed.

(** C2.  When Google Books returns a candidate, [get_book_data] returns that
    candidate; the run makes no request to Goodreads or WorldCat and shows no
    prompt, and the replies and answers scripted for them are left untouched. *)
Theorem primary_hit_short_circuits
        (key : string) (bn : cell) (q : string) (s s1 : State)
        (b : BookData) (ev1 : list Event) :
  fetch_google_books (BookEnricher_init key) q s = (Ok (Some b), s1, ev1) ->
  let r := get_book_data (BookEnricher_init key) bn q s in
  outcome_of r = Ok (Some b) /\
  events_of r = ev1 ++ [EvPrint (MsgFound (str bn))] /\
  forallb (fun e => negb (is_fallback_get e || is_prompt e)) (events_of r) = true /\
  goodreads (world (state_of r)) = goodreads (world s) /\
  worldcat (world (state_of r)) = worldcat (world s) /\
  operator (world (state_of r)) = operator (world s).
Proof.
  intros H r. subst r. rewrite (get_book_data_hit _ bn _ _ _ _ _ H).
  unfold outcome_of, events_of, state_of. cbn [fst snd].
  destruct (fetch_google_books_cases (BookEnricher_init key) q s)
    as (o & prints & Hrun & Hprints & _).
  rewrite Hrun in H. inversion H; subst.
  destruct (after_google_frame s) as (Hg & Hw & Ho & _).
  repeat split; auto.
  rewrite forallb_app. cbn.
  rewrite (prints_are_silent _ _ (fun _ => eq_refl) Hprints). reflexivity.
Qed.

Lemma primary_hit_short_circuits_witness :
  outcome_of (get_book_data (BookEnricher_init "KEY") Scenario.title_1984
                Scenario.isbn_1984 Scenario.primary_hit)
  = Ok (Some Scenario.orwell_book).
Proof.
  refine (proj1 (primary_hit_short_circuits "KEY" Scenario.title_1984 Scenario.isbn_1984
                   Scenario.primary_hit _ _ _ _)).
  vm_compute. reflexivity.
Defined.


Lemma get_book_data_fallback self bn q s s1 ev1 l s2 ev2 :
  fetch_google_books self q s = (Ok None, s1, ev1) ->
  search_sources (sources self) bn q [] s1 = (Ok l, s2, ev2) ->
  get_book_data self bn q s =
    match l with
    | [] => (Ok None, s2,
             ev1 ++ EvPrint (MsgNoGoogle (str bn) q) :: ev2
                 ++ [EvPrint (MsgNoResults (str bn) q)])
    | _ :: _ =>
        let p := inquirer_prompt (prompt_message bn) (choices_of l) s2 in
        (match outcome_of p with
         | Ok (Some book_answer) => Ok book_answer
         | Ok None => Ok None
         | Raise e => Raise e
         end,
         state_of p,
         ev1 ++ EvPrint (MsgNoGoogle (str bn) q) :: ev2
             ++ [EvPrompt (prompt_message bn) (choices_of l)])
    end.
Proof.
  intros Hf Hs. unfold get_book_data, bind. rewrite Hf. cbn.
  rewrite Hs. destruct l as [| b l'].
  - cbn. reflexivity.
  - unfold inquirer_prompt, outcome_of, state_of.
    destruct (operator (world s2)) as [| [| downs] rest]; cbn; rewrite ?app_nil_r; reflexivity.
Qed.

(** ** Disambiguation *)











(** ** What leaves the disk alone *)

Lemma keeps_disk_ret {A : Type} (a : A) : keeps_disk (ret a).
Proof. intros s o s' ev H. inversion H; subst. auto. Qed.

Lemma keeps_disk_raise {A : Type} (e : exn) : keeps_disk (@raise A e).
Proof. intros s o s' ev H. inversion H; subst. auto. Qed.

Lemma keeps_disk_lift {A : Type} (o : Outcome A) : keeps_disk (lift o).
Proof. intros s o' s' ev H. inversion H; subst. auto. Qed.

Lemma keeps_disk_print (m : Msg) : keeps_disk (print m).
Proof. intros s o s' ev H. inversion H; subst. auto. Qed.

Lemma keeps_disk_sleep (d : Z) : keeps_disk (sleep d).
Proof. intros s o s' ev H. inversion H; subst. auto. Qed.

Lemma keeps_disk_bind {A B : Type} (m : M A) (f : A -> M B) :
  keeps_disk m -> (forall a, keeps_disk (f a)) -> keeps_disk (bind m f).
Proof.
  intros Hm Hf s o s' ev. unfold bind.
  destruct (m s) as [[[a | e] s1] ev1] eqn:Em.
  - destruct (f a s1) as [[o2 s2] ev2] eqn:Ef. intros H; inversion H; subst.
    destruct (Hm _ _ _ _ Em) as (Hd1 & Hw1 & He1).
    destruct (Hf a _ _ _ _ Ef) as (Hd2 & Hw2 & He2).
    rewrite forallb_app, He1, He2. repeat split; congruence.
  - intros H; inversion H; subst. exact (Hm _ _ _ _ Em).
Qed.

Lemma keeps_disk_try_except {A : Type} (body : M A) (handler : exn -> M A) :
  keeps_disk body -> (forall e, keeps_disk (handler e)) ->
  keeps_disk (try_except body handler).
Proof.
  intros Hb Hh s o s' ev. unfold try_except.
  destruct (body s) as [[[a | e] s1] ev1] eqn:Eb.
  - intros H; inversion H; subst. exact (Hb _ _ _ _ Eb).
  - destruct (is_Exception e).
    + destruct (handler e s1) as [[o2 s2] ev2] eqn:Eh. intros H; inversion H; subst.
      destruct (Hb _ _ _ _ Eb) as (Hd1 & Hw1 & He1).
      destruct (Hh e _ _ _ _ Eh) as (Hd2 & Hw2 & He2).
      rewrite forallb_app, He1, He2. repeat split; congruence.
    + intros H; inversion H; subst. exact (Hb _ _ _ _ Eb).
Qed.

Lemma keeps_disk_get_google ep q : keeps_disk (session_get_google ep q).
Proof.
  intros s o s' ev. unfold session_get_google, next_reply.
  destruct (google (world s)); intros H; inversion H; subst; auto.
Qed.

Lemma keeps_disk_get_goodreads ep q : keeps_disk (session_get_goodreads ep q).
Proof.
  intros s o s' ev. unfold session_get_goodreads, next_reply.
  destruct (goodreads (world s)); intros H; inversion H; subst; auto.
Qed.

Lemma keeps_disk_get_worldcat ep q : keeps_disk (session_get_worldcat ep q).
Proof.
  intros s o s' ev. unfold session_get_worldcat, next_reply.
  destruct (worldcat (world s)); intros H; inversion H; subst; auto.
Qed.

Lemma keeps_disk_prompt message choices : keeps_disk (inquirer_prompt message choices).
Proof.
  intros s o s' ev. unfold inquirer_prompt.
  destruct (operator (world s)); intros H; inversion H; subst; auto.
Qed.

Create HintDb frame.
#[local] Hint Resolve keeps_disk_ret keeps_disk_raise keeps_disk_lift keeps_disk_print
  keeps_disk_sleep keeps_disk_get_google keeps_disk_get_goodreads keeps_disk_get_worldcat
  keeps_disk_prompt : frame.

Ltac frame :=
  repeat first
    [ apply keeps_disk_bind; [| intros ?]
    | apply keeps_disk_try_except; [| intros ?]
    | progress auto with frame
    | match goal with
      | |- keeps_disk (match ?x with _ => _ end) => destruct x
      | |- keeps_disk (if ?x then _ else _) => destruct x
      end ].

Lemma keeps_disk_fetch self q : keeps_disk (fetch_google_books self q).
Proof. unfold fetch_google_books. frame. Qed.

Lemma keeps_disk_goodreads bn q : keeps_disk (GoodreadsSource.search bn q).
Proof. unfold GoodreadsSource.search. frame. Qed.

Lemma keeps_disk_worldcat bn q : keeps_disk (WorldCatSource.search bn q).
Proof. unfold WorldCatSource.search. frame. Qed.

Lemma keeps_disk_search_sources srcs bn q :
  Forall (fun src : BookSource => forall b i, keeps_disk (src b i)) srcs ->
  forall acc, keeps_disk (search_sources srcs bn q acc).
Proof.
  induction 1 as [| src srcs Hsrc _ IH]; intros acc; simpl; frame.
Qed.

Lemma keeps_disk_get_book_data key bn q :
  keeps_disk (get_book_data (BookEnricher_init key) bn q).
Proof.
  unfold get_book_data.
  apply keeps_disk_bind; [apply keeps_disk_fetch | intros [b |]]; frame.
Qed.

Lemma keeps_disk_process_row key total indexed results :
  keeps_disk (process_row (BookEnricher_init key) total indexed results).
Proof.
  unfold process_row. destruct indexed as [idx row].
  pose proof (keeps_disk_get_book_data key). frame.
Qed.

Lemma keeps_disk_process_rows key total new_rows : forall results,
  keeps_disk (process_rows (BookEnricher_init key) total new_rows results).
Proof.
  induction new_rows as [| indexed rest IH]; intros results; simpl.
  - frame.
  - apply keeps_disk_bind; [apply keeps_disk_process_row | intros a; apply IH].
Qed.

(** ** The merge engine *)

Lemma process_row_run self total idx row results s :
  process_row self total (idx, row) results s =
    match get_book_data self (row_get "book_name" row) (str (row_get "isbn" row)) s with
    | (Ok d, s1, ev) =>
        (Ok match d with
            | Some b => results ++ [asdict b]
            | None => results
            end,
         s1,
         EvPrint (MsgProcessing (idx + 1) total) :: ev ++ [EvSleep CONFIG.RATE_LIMIT_DELAY])
    | (Raise e, s1, ev) => (Raise e, s1, EvPrint (MsgProcessing (idx + 1) total) :: ev)
    end.
Proof.
  unfold process_row, bind, print, sleep, emit, ret.
  destruct (get_book_data self (row_get "book_name" row) (str (row_get "isbn" row)) s)
    as [[[d | e] s1] ev]; simpl; rewrite ?app_nil_r; reflexivity.
Qed.

Lemma process_rows_decisions self total new_rows : forall results s res s' evs,
  process_rows self total new_rows results s = (Ok res, s', evs) ->
  res = results ++ map asdict (resolved (decisions self new_rows s)) /\
  List.length (decisions self new_rows s) = List.length new_rows.
Proof.
  induction new_rows as [| [idx row] rest IH]; intros results s res s' evs H;
    cbn [process_rows] in H.
  - inversion H; subst. simpl. rewrite app_nil_r. auto.
  - apply bind_ok_inv in H. destruct H as (results' & s1 & ev1 & ev2 & Hrow & Hrest & ->).
    rewrite process_row_run in Hrow. simpl.
    destruct (get_book_data self (row_get "book_name" row) (str (row_get "isbn" row)) s)
      as [[[d | e] s1'] ev]; [| discriminate].
    inversion Hrow; subst; clear Hrow.
    apply IH in Hrest. destruct Hrest as (-> & Hlen).
    simpl. split; [| congruence].
    destruct d as [b |]; simpl; [rewrite <- app_assoc |]; reflexivity.
Qed.

Lemma read_file_table path s df :
  ledger_at s path = Some df ->
  valid_frame df = true ->
  FileHandler.read_file path s = (Ok df, s, []).
Proof.
  unfold ledger_at, valid_frame, FileHandler.read_file, FileHandler.pd_read,
    try_except, bind.
  destruct (disk s path) as [[| df'] |]; try discriminate.
  intros H; inversion H; subst. intros ->. reflexivity.
Qed.

Lemma valid_frame_columns df :
  valid_frame df = true ->
  has_column "isbn" df = true /\ columns df <> [].
Proof.
  unfold valid_frame, FileHandler.required_columns. simpl.
  rewrite !andb_true_iff. intros (Hb & Hi & _). split; [exact Hi |].
  unfold has_column in Hb. destruct (columns df); [discriminate | congruence].
Qed.

Lemma new_books_of_valid df_in df_out :
  valid_frame df_in = true ->
  valid_frame df_out = true ->
  new_books_of df_in df_out =
    Ok {| columns := columns df_in; rows := pending df_in df_out |}.
Proof.
  intros Hi Ho. apply valid_frame_columns in Hi, Ho.
  unfold new_books_of, column. rewrite (proj1 Hi), (proj1 Ho).
  unfold pending, identifiers. rewrite map_map. reflexivity.
Qed.

(** A run of [process_books] on readable, well-formed input and output. *)
Lemma process_books_run self in_path out_path s df_in df_out :
  ledger_at s in_path = Some df_in -> valid_frame df_in = true ->
  ledger_at s out_path = Some df_out -> valid_frame df_out = true ->
  process_books self in_path out_path s =
    match pending df_in df_out with
    | [] => (Ok tt, s, [EvPrint MsgNoNewBooks])
    | new_rows =>
        bind (process_rows self (List.length new_rows) new_rows [])
             (fun results => write_results df_out results out_path) s
    end.
Proof.
  intros Hin Hvin Hout Hvout.
  unfold process_books.
  assert (Hread : try_except
                    (df_in0 <- FileHandler.read_file in_path ;;
                     present <- path_exists out_path ;;
                     df_out0 <- (if present then FileHandler.read_file out_path
                                 else ret empty_frame) ;;
                     ret (Some (df_in0, df_out0)))
                    (fun e => print (MsgErrorReading e) ;;; ret None) s
                  = (Ok (Some (df_in, df_out)), s, [])).
  { apply try_except_ok. unfold bind at 1.
    rewrite (read_file_table _ _ _ Hin Hvin).
    unfold bind at 1, path_exists.
    assert (Hex : match disk s out_path with Some _ => true | None => false end = true).
    { unfold ledger_at in Hout. destruct (disk s out_path); [reflexivity | discriminate]. }
    rewrite Hex. unfold bind. rewrite (read_file_table _ _ _ Hout Hvout). reflexivity. }
  unfold bind at 1. rewrite Hread.
  unfold bind at 1, lift. rewrite (new_books_of_valid _ _ Hvin Hvout).
  unfold frame_empty. cbn [columns rows].
  destruct (valid_frame_columns _ Hvin) as (_ & Hcols).
  destruct (columns df_in) as [| c cs]; [congruence |].
  destruct (pending df_in df_out) as [| r rs].
  - reflexivity.
  - cbn [app]. destruct (bind _ _ s) as [[o s2] ev2]. reflexivity.
Qed.

(** C1 (defect).  With a readable, well-formed input file and no output file,
    [process_books] takes [pd.DataFrame()] for the ledger and then raises
    [KeyError('isbn')] on [df_out['isbn']]: the pending set is never computed
    and no query is processed, where the specification has every input query
    pending. *)
Theorem absent_output_raises_KeyError
        (self : BookEnricher) (in_path out_path : string) (s : State) (df_in : DataFrame) :
  ledger_at s in_path = Some df_in ->
  valid_frame df_in = true ->
  disk s out_path = None ->
  process_books self in_path out_path s = (Raise (KeyError "isbn"), s, []).
Proof.
  intros Hin Hvin Hout.
  unfold process_books.
  unfold bind at 1, try_except. unfold bind at 1.
  rewrite (read_file_table _ _ _ Hin Hvin).
  unfold bind at 1, path_exists. rewrite Hout.
  unfold bind at 1, ret. cbn.
  unfold bind, lift, new_books_of, column.
  rewrite (proj1 (valid_frame_columns _ Hvin)). reflexivity.
Qed.

Lemma absent_output_raises_KeyError_witness :
  process_books Scenario.enricher "books.csv" "enriched_books.csv" Scenario.first_run
  = (Raise (KeyError "isbn"), Scenario.first_run, []).
Proof.
  apply (absent_output_raises_KeyError Scenario.enricher "books.csv" "enriched_books.csv"
           Scenario.first_run Scenario.books); reflexivity.
Defined.

Lemma get_book_data_all_empty key bn q s s1 s2 s3 ev1 ev2 ev3 :
  fetch_google_books (BookEnricher_init key) q s = (Ok None, s1, ev1) ->
  GoodreadsSource.search bn q s1 = (Ok [], s2, ev2) ->
  WorldCatSource.search bn q s2 = (Ok [], s3, ev3) ->
  get_book_data (BookEnricher_init key) bn q s =
    (Ok None, s3,
     ev1 ++ EvPrint (MsgNoGoogle (str bn) q)
         :: (ev2 ++ [EvSleep CONFIG.RATE_LIMIT_DELAY] ++ ev3 ++ [EvSleep CONFIG.RATE_LIMIT_DELAY])
         ++ [EvPrint (MsgNoResults (str bn) q)]).
Proof.
  intros Hf Hg Hw.
  rewrite (get_book_data_fallback _ bn _ _ _ _ _ _ _ Hf
             (fallback_search_run key _ _ _ _ _ _ _ _ _ Hg Hw)).
  reflexivity.
Qed.

(** C3.  When Google Books returns nothing and both fallback adapters return
    an empty list, [get_book_data] returns [None] without prompting; the loop
    of [process_books] appends nothing for that query; the disk is unchanged,
    and a run in which that query is the only pending one writes nothing. *)
Theorem all_sources_empty_skips
        (key : string) (bn : cell) (q : string) (s s1 s2 s3 : State)
        (ev1 ev2 ev3 : list Event) :
  fetch_google_books (BookEnricher_init key) q s = (Ok None, s1, ev1) ->
  GoodreadsSource.search bn q s1 = (Ok [], s2, ev2) ->
  WorldCatSource.search bn q s2 = (Ok [], s3, ev3) ->
  let self := BookEnricher_init key in
  let r := get_book_data self bn q s in
  outcome_of r = Ok None /\
  forallb (fun e => negb (is_prompt e || is_write e)) (events_of r) = true /\
  disk (state_of r) = disk s /\
  (forall total idx row results,
     row_get "book_name" row = bn -> str (row_get "isbn" row) = q ->
     outcome_of (process_row self total (idx, row) results s) = Ok results) /\
  (forall in_path out_path df_in df_out idx row,
     ledger_at s in_path = Some df_in -> valid_frame df_in = true ->
     ledger_at s out_path = Some df_out -> valid_frame df_out = true ->
     pending df_in df_out = [(idx, row)] ->
     row_get "book_name" row = bn -> str (row_get "isbn" row) = q ->
     let run := process_books self in_path out_path s in
     outcome_of run = Ok tt /\
     disk (state_of run) = disk s /\
     forallb (fun e => negb (is_write e)) (events_of run) = true).
Proof.
  intros Hf Hg Hw self r. subst self r.
  pose proof (get_book_data_all_empty key bn q _ _ _ _ _ _ _ Hf Hg Hw) as Hrun.
  pose proof (keeps_disk_get_book_data key bn q _ _ _ _ Hrun) as (Hdisk & _ & Hquiet).
  split; [rewrite Hrun; reflexivity |].
  split.
  { rewrite Hrun. unfold events_of. cbn [snd].
    destruct (fetch_google_books_cases (BookEnricher_init key) q s)
      as (o & p1 & Hrun1 & Hp1 & _).
    rewrite Hrun1 in Hf. inversion Hf; subst.
    apply goodreads_search_ok in Hg. destruct Hg as (_ & _ & _ & p2 & -> & Hp2).
    apply worldcat_search_ok in Hw. destruct Hw as (_ & _ & _ & p3 & -> & Hp3).
    set (P := fun e => negb (is_prompt e || is_write e)).
    assert (HP : forall m, P (EvPrint m) = true) by reflexivity.
    cbn. repeat (rewrite !forallb_app; cbn).
    rewrite (prints_are_silent P _ HP Hp1), (prints_are_silent P _ HP Hp2),
      (prints_are_silent P _ HP Hp3).
    reflexivity. }
  split; [rewrite Hrun; exact Hdisk |].
  split.
  { intros total idx row results Hbn Hq.
    rewrite process_row_run, Hbn, Hq, Hrun. reflexivity. }
  intros in_path out_path df_in df_out idx row Hin Hvin Hout Hvout Hpend Hbn Hq run.
  subst run.
  assert (Hbooks : exists evs,
             process_books (BookEnricher_init key) in_path out_path s = (Ok tt, s3, evs) /\
             forallb (fun e => negb (is_write e)) evs = true).
  { assert (Hrows : exists evs,
               process_rows (BookEnricher_init key) 1 [(idx, row)] [] s = (Ok [], s3, evs)).
    { cbn [process_rows]. unfold bind.
      rewrite process_row_run, Hbn, Hq, Hrun. eexists. reflexivity. }
    destruct Hrows as (evs & Hrows).
    destruct (keeps_disk_process_rows key _ _ _ _ _ _ _ Hrows) as (_ & _ & Hevs).
    rewrite (process_books_run _ _ _ _ _ _ Hin Hvin Hout Hvout), Hpend.
    cbn [List.length]. unfold bind. rewrite Hrows. cbn.
    eexists. split; [reflexivity |]. rewrite app_nil_r. exact Hevs. }
  destruct Hbooks as (evs & -> & Hevs).
  unfold outcome_of, state_of, events_of. cbn [fst snd]. auto.
Qed.

Lemma all_sources_empty_skips_witness :
  outcome_of (get_book_data (BookEnricher_init "KEY") Scenario.title_1984
                Scenario.isbn_1984 Scenario.all_miss) = Ok None /\
  disk (state_of (process_books (BookEnricher_init "KEY") "books.csv" "enriched_books.csv"
                    Scenario.all_miss))
  = disk Scenario.all_miss.
Proof.
  destruct (all_sources_empty_skips "KEY" Scenario.title_1984 Scenario.isbn_1984
              Scenario.all_miss
              (after_google Scenario.all_miss)
              (after_goodreads (after_google Scenario.all_miss))
              (after_worldcat (after_goodreads (after_google Scenario.all_miss)))
              [google_get (BookEnricher_init "KEY") Scenario.isbn_1984]
              [goodreads_get Scenario.title_1984 Scenario.isbn_1984]
              [worldcat_get Scenario.isbn_1984]
              eq_refl eq_refl eq_refl)
    as (Hnone & _ & _ & _ & Hrun).
  split; [exact Hnone |].
  apply (Hrun "books.csv" "enriched_books.csv" Scenario.books Scenario.enriched
           0 [("book_name", Scenario.title_1984); ("isbn", CInt 9780451524935)]);
    reflexivity.
Defined.

Lemma isin_In x values : isin x values = true <-> In x values.
Proof.
  unfold isin. rewrite existsb_exists. split.
  - intros (y & Hin & Heq). apply String.eqb_eq in Heq. now subst.
  - intros Hin. exists x. split; [assumption | apply String.eqb_refl].
Qed.

Lemma pending_In df_in df_out r :
  In r (pending df_in df_out) <->
  In r (rows df_in) /\ ~ In (row_id r) (identifiers df_out).
Proof.
  unfold pending. rewrite filter_In. unfold row_id.
  rewrite negb_true_iff, <- not_true_iff_false, isin_In. reflexivity.
Qed.

Lemma pending_nil df_in df_out :
  (forall r, In r (rows df_in) -> In (row_id r) (identifiers df_out)) ->
  pending df_in df_out = [].
Proof.
  intros H. destruct (pending df_in df_out) as [| r rs] eqn:E; [reflexivity |].
  assert (Hr : In r (pending df_in df_out)) by (rewrite E; left; reflexivity).
  apply pending_In in Hr. destruct Hr as (Hin & Hnot). elim Hnot. auto.
Qed.





(** The end of a run: nothing to write, a write that succeeds, or a write
    that fails and is reported. *)
Lemma write_results_cases df_out results out_path s :
  exists s' ev,
    write_results df_out results out_path s = (Ok tt, s', ev) /\
    (disk s' = disk s \/
     disk s' = disk_with (disk s) out_path (concat df_out (frame_of_records results))) /\
    (results <> [] -> hd false (disk_writes (world s)) = true ->
     disk s' = disk_with (disk s) out_path (concat df_out (frame_of_records results))) /\
    (results = [] -> s' = s /\ ev = []).
Proof.
  unfold write_results. destruct results as [| r rs].
  - exists s, []. repeat split; auto. congruence.
  - unfold try_except, bind, FileHandler.write_file, FileHandler.pd_write, try_except.
    destruct (disk_writes (world s)) as [| [|] rest]; cbn.
    + eexists _, _. repeat split; auto; discriminate.
    + eexists _, _. split; [reflexivity |].
      split; [right; reflexivity |]. split; [reflexivity | discriminate].
    + eexists _, _. repeat split; auto; discriminate.
Qed.

Lemma get_book_data_fallback_raise self bn q s s1 ev1 e s2 ev2 :
  fetch_google_books self q s = (Ok None, s1, ev1) ->
  search_sources (sources self) bn q [] s1 = (Raise e, s2, ev2) ->
  get_book_data self bn q s =
    (Raise e, s2, ev1 ++ EvPrint (MsgNoGoogle (str bn) q) :: ev2).
Proof.
  intros Hf Hs. unfold get_book_data, bind. rewrite Hf. cbn.
  rewrite Hs. reflexivity.
Qed.














(* ========================================================================= *)
(** * Further properties of the code *)
(* ========================================================================= *)

Lemma bind_inv {A B : Type} (m : M A) (f : A -> M B) s o s2 evs :
  bind m f s = (o, s2, evs) ->
  (exists e, m s = (Raise e, s2, evs) /\ o = Raise e) \/
  (exists a s1 ev1 ev2,
      m s = (Ok a, s1, ev1) /\ f a s1 = (o, s2, ev2) /\ evs = ev1 ++ ev2).
Proof.
  unfold bind. destruct (m s) as [[[a | e] s1] ev1].
  - destruct (f a s1) as [[o' s2'] ev2] eqn:Hf. intros H. inversion H; subst.
    right. exists a, s1, ev1, ev2. auto.
  - intros H. inversion H; subst. left. exists e. auto.
Qed.

(** ** Reading and writing files *)

Lemma read_file_run path s :
  FileHandler.read_file path s =
    (match readable s path with
     | Some df => Ok df
     | None => Raise WrappedException
     end, s, []).
Proof.
  unfold readable, ledger_at, valid_frame, FileHandler.read_file, FileHandler.pd_read,
    try_except, bind.
  destruct (disk s path) as [[| df] |]; try reflexivity.
  destruct (forallb (fun col => has_column col df) FileHandler.required_columns);
    reflexivity.
Qed.

(** X1.  [read_file] returns a table exactly when the path holds one with
    both a [book_name] and an [isbn] column, and returns it as it is.  An
    absent file, an unreadable one and a table lacking one of the two columns
    all end in the same wrapped [Exception]; nothing else is raised, and
    reading changes nothing. *)
Theorem read_file_validates (path : string) (s : State) :
  let r := FileHandler.read_file path s in
  state_of r = s /\ events_of r = [] /\
  (forall df, outcome_of r = Ok df <->
              disk s path = Some (Table df) /\
              has_column "book_name" df = true /\ has_column "isbn" df = true) /\
  (forall e, outcome_of r = Raise e -> e = WrappedException).
Proof.
  cbv zeta. rewrite read_file_run.
  unfold outcome_of, state_of, events_of. cbn [fst snd].
  split; [reflexivity |]. split; [reflexivity |]. split.
  - intros df. unfold readable, ledger_at, valid_frame, FileHandler.required_columns.
    cbn [forallb].
    destruct (disk s path) as [[| df'] |].
    + split; [discriminate | intros (H & _); discriminate].
    + destruct (has_column "book_name" df') eqn:Hb;
        destruct (has_column "isbn" df') eqn:Hi; cbn;
        (split; [intros H; inversion H; subst; auto
                | intros (H & H1 & H2); inversion H; subst; congruence]).
    + split; [discriminate | intros (H & _); discriminate].
  - intros e. destruct (readable s path); intros H; inversion H. reflexivity.
Qed.


(** ** Every way a run of [process_books] can go *)

Lemma process_books_unreadable self in_path out_path s :
  readable s in_path = None \/
  (disk s out_path <> None /\ readable s out_path = None) ->
  process_books self in_path out_path s =
    (Ok tt, s, [EvPrint (MsgErrorReading WrappedException)]).
Proof.
  intros H. unfold process_books.
  unfold bind at 1. unfold try_except. unfold bind at 1.
  rewrite read_file_run.
  destruct (readable s in_path) as [df_in |] eqn:Hin.
  - destruct H as [H | (Hex & Hout)]; [discriminate |].
    unfold bind at 1, path_exists.
    destruct (disk s out_path) as [f |]; [| congruence].
    unfold bind at 1. rewrite read_file_run, Hout. reflexivity.
  - reflexivity.
Qed.

Lemma readable_ledger s path df :
  readable s path = Some df -> ledger_at s path = Some df /\ valid_frame df = true.
Proof.
  unfold readable. destruct (ledger_at s path) as [df' |]; [| discriminate].
  destruct (valid_frame df') eqn:Hv; [| discriminate].
  intros H; inversion H; subst. auto.
Qed.

Lemma readable_exists s path df : readable s path = Some df -> disk s path <> None.
Proof.
  unfold readable, ledger_at. destruct (disk s path); [discriminate | discriminate].
Qed.

Lemma process_books_no_ledger self in_path out_path s df_in :
  readable s in_path = Some df_in ->
  disk s out_path = None ->
  process_books self in_path out_path s = (Raise (KeyError "isbn"), s, []).
Proof.
  intros Hin Hout. destruct (readable_ledger _ _ _ Hin) as (_ & Hv).
  unfold process_books.
  unfold bind at 1, try_except. unfold bind at 1.
  rewrite read_file_run, Hin.
  unfold bind at 1, path_exists. rewrite Hout.
  unfold bind at 1, ret. cbn.
  unfold bind, lift, new_books_of, column.
  rewrite (proj1 (valid_frame_columns _ Hv)). reflexivity.
Qed.

(** The four ways the files can be, and what [process_books] does in each. *)
Lemma process_books_cases self in_path out_path s :
  (process_books self in_path out_path s =
     (Ok tt, s, [EvPrint (MsgErrorReading WrappedException)]) /\
   (readable s in_path = None \/
    (disk s out_path <> None /\ readable s out_path = None)))
  \/ (process_books self in_path out_path s = (Raise (KeyError "isbn"), s, []) /\
      readable s in_path <> None /\ disk s out_path = None)
  \/ (exists df_in df_out,
        readable s in_path = Some df_in /\ readable s out_path = Some df_out /\
        process_books self in_path out_path s =
          match pending df_in df_out with
          | [] => (Ok tt, s, [EvPrint MsgNoNewBooks])
          | new_rows =>
              bind (process_rows self (List.length new_rows) new_rows [])
                   (fun results => write_results df_out results out_path) s
          end).
Proof.
  destruct (readable s in_path) as [df_in |] eqn:Hin.
  - destruct (readable_ledger _ _ _ Hin) as (Hl & Hv).
    destruct (disk s out_path) as [f |] eqn:Hex.
    + destruct (readable s out_path) as [df_out |] eqn:Hout.
      * right; right. exists df_in, df_out. repeat split.
        destruct (readable_ledger _ _ _ Hout) as (Hl' & Hv').
        apply process_books_run; assumption.
      * left. split; [| right; split; [congruence | reflexivity]].
        apply process_books_unreadable. right. rewrite Hex. split; congruence.
    + right; left. split; [| split; [discriminate | reflexivity]].
      eapply process_books_no_ledger; eassumption.
  - left. split; [| left; reflexivity].
    apply process_books_unreadable. left. exact Hin.
Qed.

(** X3.  When the input file is absent, unreadable or lacks a required
    column, or when the output file exists and is unreadable or lacks one,
    [process_books] reports the reading error and returns: no request is
    made, nothing is written, the state is as before. *)
Theorem unreadable_files_end_the_run
        (self : BookEnricher) (in_path out_path : string) (s : State) :
  readable s in_path = None \/
  (disk s out_path <> None /\ readable s out_path = None) ->
  process_books self in_path out_path s =
    (Ok tt, s, [EvPrint (MsgErrorReading WrappedException)]).
Proof.
  apply process_books_unreadable.
Qed.

Lemma unreadable_files_end_the_run_witness :
  process_books Scenario.enricher "missing.csv" "enriched_books.csv" Scenario.primary_hit
  = (Ok tt, Scenario.primary_hit, [EvPrint (MsgErrorReading WrappedException)]).
Proof.
  apply (unreadable_files_end_the_run Scenario.enricher "missing.csv" "enriched_books.csv"
           Scenario.primary_hit).
  left. reflexivity.
Defined.

(** ** Which exceptions get out *)

Lemma only_base_ret {A : Type} (a : A) : raises_only_base (ret a).
Proof. intros s e s' ev H. discriminate. Qed.

Lemma only_base_print (m : Msg) : raises_only_base (print m).
Proof. intros s e s' ev H. discriminate. Qed.

Lemma only_base_sleep (d : Z) : raises_only_base (sleep d).
Proof. intros s e s' ev H. discriminate. Qed.

Lemma only_base_prompt message choices : raises_only_base (inquirer_prompt message choices).
Proof.
  intros s e s' ev. unfold inquirer_prompt.
  destruct (operator (world s)); discriminate.
Qed.



#[local] Hint Resolve only_base_ret only_base_print only_base_sleep only_base_prompt : frame.











(** ** What a run does to the disk *)

Lemma write_results_disk df_out results out_path s o s' ev :
  write_results df_out results out_path s = (o, s', ev) ->
  o = Ok tt /\
  (disk s' = disk s \/
   (results <> [] /\
    disk s' = disk_with (disk s) out_path (concat df_out (frame_of_records results)))).
Proof.
  intros H.
  destruct (write_results_cases df_out results out_path s)
    as (s2 & ev2 & Hrun & Hcases & _ & Hnil).
  rewrite Hrun in H. inversion H; subst. split; [reflexivity |].
  destruct Hcases as [Hd | Hd]; [left; exact Hd |].
  destruct results as [| r rs].
  - left. destruct (Hnil eq_refl) as (-> & _). reflexivity.
  - right. split; [discriminate | exact Hd].
Qed.

(** Any run, however it ends: the disk is as before, or the output path
    holds the old ledger followed by the records of the run. *)
Lemma process_books_disk key in_path out_path s o s' ev :
  process_books (BookEnricher_init key) in_path out_path s = (o, s', ev) ->
  disk s' = disk s \/
  (o = Ok tt /\
   exists df_in df_out results,
     readable s in_path = Some df_in /\ readable s out_path = Some df_out /\
     results <> [] /\
     results = map asdict (resolved (decisions (BookEnricher_init key)
                                        (pending df_in df_out) s)) /\
     disk s' = disk_with (disk s) out_path (concat df_out (frame_of_records results))).
Proof.
  intros H.
  destruct (process_books_cases (BookEnricher_init key) in_path out_path s)
    as [(Hrun & _) | [(Hrun & _) | (df_in & df_out & Hin & Hout & Hrun)]];
    rewrite Hrun in H; try (inversion H; subst; left; reflexivity).
  destruct (pending df_in df_out) as [| r rs] eqn:Hp;
    [inversion H; subst; left; reflexivity |].
  apply bind_inv in H.
  destruct H as [(e & Hrows & ->) | (results & s1 & ev1 & ev2 & Hrows & Hwr & ->)].
  - left. exact (proj1 (keeps_disk_process_rows key _ _ _ _ _ _ _ Hrows)).
  - destruct (keeps_disk_process_rows key _ _ _ _ _ _ _ Hrows) as (Hd & _).
    destruct (process_rows_decisions _ _ _ _ _ _ _ _ Hrows) as (Hres & _).
    cbn [app] in Hres.
    apply write_results_disk in Hwr. destruct Hwr as (-> & [Hd' | (Hne & Hd')]).
    + left. congruence.
    + right. split; [reflexivity |].
      exists df_in, df_out, results. rewrite Hd in Hd'. rewrite Hp.
      repeat split; assumption.
Qed.

(** X6.  Whatever happens in a run, [process_books] changes no file other
    than the output file: the input file and every other path hold afterwards
    what they held before. *)
Theorem only_the_output_file_changes
        (key : string) (in_path out_path : string) (s : State) (other : string) :
  other <> out_path ->
  disk (state_of (process_books (BookEnricher_init key) in_path out_path s)) other
  = disk s other.
Proof.
  intros Hne.
  destruct (process_books (BookEnricher_init key) in_path out_path s)
    as [[o s'] ev] eqn:Hrun.
  unfold state_of. cbn [fst snd].
  destruct (process_books_disk _ _ _ _ _ _ _ Hrun)
    as [Hd | (_ & df_in & df_out & results & _ & _ & _ & _ & Hd)]; rewrite Hd.
  - reflexivity.
  - unfold disk_with. apply String.eqb_neq in Hne. rewrite Hne. reflexivity.
Qed.

Lemma only_the_output_file_changes_witness :
  disk (state_of (process_books (BookEnricher_init "KEY") "books.csv" "enriched_books.csv"
                    Scenario.primary_hit)) "books.csv"
  = disk Scenario.primary_hit "books.csv".
Proof.
  apply (only_the_output_file_changes "KEY" "books.csv" "enriched_books.csv"
           Scenario.primary_hit "books.csv").
  discriminate.
Defined.

(** X7.  A run that ends in an exception has written nothing: the disk is as
    it was before the run, whatever had been resolved until then. *)
Theorem interrupted_run_writes_nothing
        (key : string) (in_path out_path : string) (s s' : State)
        (e : exn) (ev : list Event) :
  process_books (BookEnricher_init key) in_path out_path s = (Raise e, s', ev) ->
  disk s' = disk s /\ forallb (fun x => negb (is_write x)) ev = true.
Proof.
  intros H.
  destruct (process_books_cases (BookEnricher_init key) in_path out_path s)
    as [(Hrun & _) | [(Hrun & _) | (df_in & df_out & Hin & Hout & Hrun)]];
    rewrite Hrun in H; try (inversion H; subst; auto; fail).
  destruct (pending df_in df_out) as [| r rs]; [discriminate |].
  apply bind_inv in H.
  destruct H as [(e' & Hrows & _) | (results & s1 & ev1 & ev2 & _ & Hwr & _)].
  - destruct (keeps_disk_process_rows key _ _ _ _ _ _ _ Hrows) as (Hd & _ & Hq). auto.
  - apply write_results_disk in Hwr. destruct Hwr as (Hwr & _). discriminate.
Qed.

Lemma interrupted_run_writes_nothing_witness :
  disk (state_of (process_books (BookEnricher_init "KEY") "books.csv" "enriched_books.csv"
                    Scenario2.interrupted))
  = disk Scenario2.interrupted.
Proof.
  refine (proj1 (interrupted_run_writes_nothing "KEY" "books.csv" "enriched_books.csv"
                   Scenario2.interrupted _ KeyboardInterrupt
                   (events_of (process_books (BookEnricher_init "KEY") "books.csv"
                                 "enriched_books.csv" Scenario2.interrupted)) _)).
  vm_compute. reflexivity.
Defined.








(** X9.  When the same file is given as input and as output, every input
    identifier is in the ledger, so nothing is pending: the run makes no
    request, writes nothing and reports that there is nothing to do. *)
Theorem same_file_in_and_out
        (self : BookEnricher) (path : string) (s : State) (df : DataFrame) :
  readable s path = Some df ->
  pending df df = [] /\
  process_books self path path s = (Ok tt, s, [EvPrint MsgNoNewBooks]).
Proof.
  intros H. destruct (readable_ledger _ _ _ H) as (Hl & Hv).
  assert (Hp : pending df df = []).
  { apply pending_nil. intros r Hr. unfold identifiers.
    apply in_map_iff. exists r. split; [reflexivity | exact Hr]. }
  split; [exact Hp |].
  rewrite (process_books_run _ _ _ _ _ _ Hl Hv Hl Hv), Hp. reflexivity.
Qed.

Lemma same_file_in_and_out_witness :
  process_books Scenario.enricher "books.csv" "books.csv" Scenario.primary_hit
  = (Ok tt, Scenario.primary_hit, [EvPrint MsgNoNewBooks]).
Proof.
  apply (same_file_in_and_out Scenario.enricher "books.csv" Scenario.primary_hit
           Scenario.books).
  reflexivity.
Defined.

(** ** The primary adapter *)

(** X10.  [fetch_google_books] returns a candidate exactly when the reply has
    status 200, its body parses, [totalItems] is present and not zero, and the
    first item of [items] has a [volumeInfo]; the candidate is built from that
    first item alone, whatever the other items are. *)
Theorem google_hit_exactly (self : BookEnricher) (q : string) (s : State) (b : BookData) :
  outcome_of (fetch_google_books self q s) = Ok (Some b) <->
  exists data n item others info,
    next_google s = Response 200 (Ok data) /\
    totalItems data = Some n /\ n <> 0%Z /\
    items data = Some (item :: others) /\
    volumeInfo item = Some info /\
    b = book_of_volume q item info.
Proof.
  unfold next_google, fetch_google_books, outcome_of.
  run_get (google (world s)).
  - split; [discriminate | intros (? & ? & ? & ? & ? & H & _); discriminate].
  - split; [destruct (is_Exception e); discriminate
           | intros (? & ? & ? & ? & ? & H & _); discriminate].
  - destruct (status =? 200)%Z eqn:Hst; cbn.
    + apply Z.eqb_eq in Hst. subst status.
      unfold truthy. destruct (totalItems body) as [n |] eqn:Hn; cbn.
      * destruct (n =? 0)%Z eqn:Hz; cbn.
        -- apply Z.eqb_eq in Hz.
           split; [discriminate |].
           intros (d & n' & i & o & inf & H & Hn' & Hnz & _).
           inversion H; subst. congruence.
        -- apply Z.eqb_neq in Hz.
           destruct (items body) as [[| item its] |] eqn:Hi; cbn.
           ++ split; [discriminate |].
              intros (d & n' & i & o & inf & H & _ & _ & Hi' & _).
              inversion H; subst. congruence.
           ++ destruct (volumeInfo item) as [info |] eqn:Hv; cbn.
              ** split.
                 --- intros H. inversion H; subst.
                     exists body, n, item, its, info. repeat split; auto.
                 --- intros (d & n' & i & o & inf & H & _ & _ & Hi' & Hv' & ->).
                     inversion H; subst. rewrite Hi in Hi'. inversion Hi'; subst.
                     rewrite Hv in Hv'. inversion Hv'; subst. reflexivity.
              ** split; [discriminate |].
                 intros (d & n' & i & o & inf & H & _ & _ & Hi' & Hv' & _).
                 inversion H; subst. rewrite Hi in Hi'. inversion Hi'; subst.
                 congruence.
           ++ split; [discriminate |].
              intros (d & n' & i & o & inf & H & _ & _ & Hi' & _).
              inversion H; subst. congruence.
      * split; [discriminate |].
        intros (d & n' & i & o & inf & H & Hn' & _). inversion H; subst. congruence.
    + apply Z.eqb_neq in Hst.
      split; [discriminate |].
      intros (d & n' & i & o & inf & H & _). inversion H; subst. congruence.
  - split; [destruct (status =? 200)%Z; cbn; [destruct (is_Exception e) |]; discriminate |].
    intros (d & n' & i & o & inf & H & _). discriminate.
Qed.




(** ** How many requests and prompts *)

Lemma count_app kind (a b : list Event) : count kind (a ++ b) = count kind a + count kind b.
Proof.
  unfold count. rewrite filter_app, length_app. reflexivity.
Qed.

Lemma at_most_ret {A : Type} (a : A) g p : at_most g p (ret a).
Proof. intros s o s' ev H. inversion H; subst. cbn. lia. Qed.

Lemma at_most_raise {A : Type} (e : exn) g p : at_most g p (@raise A e).
Proof. intros s o s' ev H. inversion H; subst. cbn. lia. Qed.

Lemma at_most_lift {A : Type} (x : Outcome A) g p : at_most g p (lift x).
Proof. intros s o s' ev H. inversion H; subst. cbn. lia. Qed.

Lemma at_most_print (m : Msg) g p : at_most g p (print m).
Proof. intros s o s' ev H. inversion H; subst. cbn. lia. Qed.

Lemma at_most_sleep (d : Z) g p : at_most g p (sleep d).
Proof. intros s o s' ev H. inversion H; subst. cbn. lia. Qed.

Lemma at_most_get_google ep q g p : at_most (S g) p (session_get_google ep q).
Proof.
  intros s o s' ev. unfold session_get_google, next_reply.
  destruct (google (world s)); intros H; inversion H; subst; cbn; lia.
Qed.

Lemma at_most_get_goodreads ep q g p : at_most (S g) p (session_get_goodreads ep q).
Proof.
  intros s o s' ev. unfold session_get_goodreads, next_reply.
  destruct (goodreads (world s)); intros H; inversion H; subst; cbn; lia.
Qed.

Lemma at_most_get_worldcat ep q g p : at_most (S g) p (session_get_worldcat ep q).
Proof.
  intros s o s' ev. unfold session_get_worldcat, next_reply.
  destruct (worldcat (world s)); intros H; inversion H; subst; cbn; lia.
Qed.

Lemma at_most_prompt message choices g p : at_most g (S p) (inquirer_prompt message choices).
Proof.
  intros s o s' ev. unfold inquirer_prompt.
  destruct (operator (world s)); intros H; inversion H; subst; cbn; lia.
Qed.

(** A budget of [g1 + g2] requests and [p1 + p2] prompts, split over the two
    halves of a bind. *)
Lemma at_most_bind {A B : Type} g1 p1 g2 p2 (m : M A) (f : A -> M B) :
  at_most g1 p1 m -> (forall a, at_most g2 p2 (f a)) ->
  at_most (g1 + g2) (p1 + p2) (bind m f).
Proof.
  intros Hm Hf s o s' ev H. apply bind_inv in H.
  destruct H as [(e & Hr & _) | (a & s1 & ev1 & ev2 & Hr & Hr2 & ->)].
  - destruct (Hm _ _ _ _ Hr). lia.
  - destruct (Hm _ _ _ _ Hr). destruct (Hf a _ _ _ _ Hr2).
    rewrite !count_app. lia.
Qed.

Lemma at_most_try_except {A : Type} g p (body : M A) (handler : exn -> M A) :
  at_most g p body -> (forall e, at_most 0 0 (handler e)) ->
  at_most g p (try_except body handler).
Proof.
  intros Hb Hh s o s' ev. unfold try_except.
  destruct (body s) as [[[a | e] s1] ev1] eqn:Eb.
  - intros H; inversion H; subst. exact (Hb _ _ _ _ Eb).
  - destruct (is_Exception e).
    + destruct (handler e s1) as [[o2 s2] ev2] eqn:Eh. intros H; inversion H; subst.
      destruct (Hb _ _ _ _ Eb). destruct (Hh e _ _ _ _ Eh).
      rewrite !count_app. lia.
    + intros H; inversion H; subst. exact (Hb _ _ _ _ Eb).
Qed.

Lemma at_most_quiet_handler (m : Msg) {A : Type} (a : A) : at_most 0 0 (print m ;;; ret a).
Proof.
  apply (at_most_bind 0 0 0 0); [apply at_most_print | intros _; apply at_most_ret].
Qed.

Lemma at_most_fetch self q : at_most 1 0 (fetch_google_books self q).
Proof.
  unfold fetch_google_books.
  apply at_most_try_except; [| intros e; apply at_most_quiet_handler].
  apply (at_most_bind 1 0 0 0); [apply at_most_get_google |].
  intros [e | status body]; [apply at_most_raise |].
  destruct (negb (status =? 200)%Z); [apply at_most_quiet_handler |].
  apply (at_most_bind 0 0 0 0); [apply at_most_lift |]. intros data.
  destruct (negb _); [apply at_most_ret |].
  destruct (items data) as [[| item its] |]; try apply at_most_raise.
  destruct (volumeInfo item); [apply at_most_ret | apply at_most_raise].
Qed.

Lemma at_most_goodreads bn q : at_most 1 0 (GoodreadsSource.search bn q).
Proof.
  unfold GoodreadsSource.search.
  apply at_most_try_except; [| intros e; apply at_most_quiet_handler].
  apply (at_most_bind 1 0 0 0); [apply at_most_get_goodreads |].
  intros [e | status body]; [apply at_most_raise |].
  destruct (negb (status =? 200)%Z); [apply at_most_ret |].
  apply (at_most_bind 0 0 0 0); [apply at_most_lift |]. intros soup. apply at_most_lift.
Qed.

Lemma at_most_worldcat bn q : at_most 1 0 (WorldCatSource.search bn q).
Proof.
  unfold WorldCatSource.search.
  apply at_most_try_except; [| intros e; apply at_most_quiet_handler].
  apply (at_most_bind 1 0 0 0); [apply at_most_get_worldcat |].
  intros [e | status body]; [apply at_most_raise |].
  destruct (negb (status =? 200)%Z); [apply at_most_ret |].
  apply (at_most_bind 0 0 0 0); [apply at_most_lift |]. intros soup. apply at_most_ret.
Qed.

Lemma at_most_fallbacks key bn q acc :
  at_most 2 0 (search_sources (sources (BookEnricher_init key)) bn q acc).
Proof.
  cbn [sources BookEnricher_init search_sources].
  apply (at_most_bind 1 0 1 0); [apply at_most_goodreads | intros gr].
  apply (at_most_bind 0 0 1 0); [apply at_most_sleep | intros _].
  apply (at_most_bind 1 0 0 0); [apply at_most_worldcat | intros wc].
  apply (at_most_bind 0 0 0 0); [apply at_most_sleep | intros _].
  apply at_most_ret.
Qed.

Lemma at_most_get_book_data key bn q :
  at_most 3 1 (get_book_data (BookEnricher_init key) bn q).
Proof.
  unfold get_book_data.
  apply (at_most_bind 1 0 2 1); [apply at_most_fetch |].
  intros [b |].
  - apply (at_most_bind 0 0 2 1); [apply at_most_print | intros _; apply at_most_ret].
  - apply (at_most_bind 0 0 2 1); [apply at_most_print | intros _].
    apply (at_most_bind 2 0 0 1); [apply at_most_fallbacks |].
    intros [| c cs].
    + apply (at_most_bind 0 0 0 1); [apply at_most_print | intros _; apply at_most_ret].
    + apply (at_most_bind 0 1 0 0); [apply at_most_prompt | intros a; apply at_most_ret].
Qed.

Lemma at_most_process_rows key total new_rows : forall results,
  at_most (3 * List.length new_rows) (List.length new_rows)
          (process_rows (BookEnricher_init key) total new_rows results).
Proof.
  induction new_rows as [| [idx row] rest IH]; intros results; cbn [process_rows].
  - apply at_most_ret.
  - replace (3 * List.length ((idx, row) :: rest)) with (3 + 3 * List.length rest)
      by (cbn [List.length]; lia).
    change (List.length ((idx, row) :: rest)) with (1 + List.length rest).
    apply at_most_bind; [| intros a; apply IH].
    unfold process_row.
    apply (at_most_bind 0 0 3 1); [apply at_most_print | intros _].
    apply (at_most_bind 3 1 0 0); [apply at_most_get_book_data | intros book].
    apply (at_most_bind 0 0 0 0); [apply at_most_sleep | intros _; apply at_most_ret].
Qed.

(** X12.  One call of [get_book_data] makes at most three requests (the first
    of them to Google Books) and shows at most one prompt, whatever the
    endpoints and the operator do. *)
Theorem at_most_three_requests_per_book
        (key : string) (bn : cell) (q : string) (s : State) :
  let ev := events_of (get_book_data (BookEnricher_init key) bn q s) in
  hd_error ev = Some (google_get (BookEnricher_init key) q) /\
  count is_get ev <= 3 /\
  count is_prompt ev <= 1.
Proof.
  cbv zeta.
  destruct (get_book_data (BookEnricher_init key) bn q s) as [[o s'] ev] eqn:Hrun.
  unfold events_of. cbn [snd].
  split; [| exact (at_most_get_book_data key bn q _ _ _ _ Hrun)].
  destruct (fetch_google_books_cases (BookEnricher_init key) q s)
    as (o1 & prints & Hf & _).
  unfold get_book_data in Hrun. apply bind_inv in Hrun.
  rewrite Hf in Hrun.
  destruct Hrun as [(e & Hr & _) | (a & s1 & ev1 & ev2 & Hr & _ & ->)];
    inversion Hr; subst; reflexivity.
Qed.

Lemma count_none kind (ev : list Event) :
  forallb (fun e => negb (kind e)) ev = true -> count kind ev = 0.
Proof.
  unfold count. induction ev as [| e ev IH]; simpl; [reflexivity |].
  destruct (kind e); simpl; [discriminate | exact IH].
Qed.

(** X13.  A run of [process_books] over readable files makes at most three
    requests and shows at most one prompt for each pending row, none for the
    rows already in the ledger, and writes at most once. *)
Theorem requests_follow_the_pending_rows
        (key : string) (in_path out_path : string) (s : State) (df_in df_out : DataFrame) :
  readable s in_path = Some df_in ->
  readable s out_path = Some df_out ->
  let ev := events_of (process_books (BookEnricher_init key) in_path out_path s) in
  count is_get ev <= 3 * List.length (pending df_in df_out) /\
  count is_prompt ev <= List.length (pending df_in df_out) /\
  count is_write ev <= 1.
Proof.
  intros Hin Hout. cbv zeta.
  destruct (readable_ledger _ _ _ Hin) as (Hlin & Hvin).
  destruct (readable_ledger _ _ _ Hout) as (Hlout & Hvout).
  rewrite (process_books_run _ _ _ _ _ _ Hlin Hvin Hlout Hvout).
  destruct (pending df_in df_out) as [| r rs] eqn:Hp.
  - unfold events_of. cbn. lia.
  - destruct (bind _ _ s) as [[o s'] ev] eqn:Hb. unfold events_of. cbn [snd].
    apply bind_inv in Hb.
    destruct Hb as [(e & Hrows & _) | (results & s1 & ev1 & ev2 & Hrows & Hwr & ->)].
    + destruct (at_most_process_rows key _ _ _ _ _ _ _ Hrows) as (Hg & Hpr).
      destruct (keeps_disk_process_rows key _ _ _ _ _ _ _ Hrows) as (_ & _ & Hq).
      rewrite (count_none _ _ Hq). repeat split; [exact Hg | exact Hpr | lia].
    + destruct (at_most_process_rows key _ _ _ _ _ _ _ Hrows) as (Hg & Hpr).
      destruct (keeps_disk_process_rows key _ _ _ _ _ _ _ Hrows) as (_ & _ & Hq).
      rewrite !count_app, (count_none _ _ Hq).
      assert (Hw : count is_get ev2 = 0 /\ count is_prompt ev2 = 0 /\ count is_write ev2 <= 1).
      { revert Hwr. unfold write_results.
        destruct results as [| x xs]; [intros H; inversion H; subst; cbn; lia |].
        unfold try_except, bind, FileHandler.write_file, FileHandler.pd_write, try_except.
        destruct (disk_writes (world s1)) as [| [|] rest]; cbn;
          intros H; inversion H; subst; cbn; lia. }
      lia.
Qed.

Lemma requests_follow_the_pending_rows_witness :
  count is_get (events_of (process_books (BookEnricher_init "KEY") "books.csv"
                             "enriched_books.csv" Scenario.fallback)) <= 3.
Proof.
  refine (proj1 (requests_follow_the_pending_rows "KEY" "books.csv" "enriched_books.csv"
                   Scenario.fallback Scenario.books Scenario.enriched _ _));
    reflexivity.
Defined.

(** ** The scraping adapters look at the head of the page only *)

Lemma goodreads_scrape_raises q selected : forall results e,
  GoodreadsSource.scrape q selected results = Raise e -> is_Exception e = true.
Proof.
  induction selected as [| item rest IH]; intros results e; cbn [GoodreadsSource.scrape];
    [discriminate |].
  destruct (GoodreadsSource.candidate q item) as [[b |] | e'] eqn:Hc; try apply IH.
  intros H. inversion H; subst. clear H. revert Hc.
  unfold GoodreadsSource.candidate.
  destruct (gr_title item) as [t |]; [| discriminate].
  destruct (gr_author item) as [a |]; [| discriminate].
  destruct (gr_rating item) as [r |]; [destruct (as_float r) |];
    try destruct (href t); intros H; inversion H; reflexivity.
Qed.

Lemma goodreads_scrape_untitled q selected : forall results,
  Forall (fun item => gr_title item = None \/ gr_author item = None) selected ->
  GoodreadsSource.scrape q selected results = Ok results.
Proof.
  induction selected as [| item rest IH]; intros results H; cbn [GoodreadsSource.scrape];
    [reflexivity |].
  inversion H as [| ? ? Hitem Hrest]; subst.
  assert (Hc : GoodreadsSource.candidate q item = Ok None).
  { unfold GoodreadsSource.candidate.
    destruct Hitem as [-> | Ha]; [reflexivity |].
    rewrite Ha. destruct (gr_title item); reflexivity. }
  rewrite Hc. apply IH. exact Hrest.
Qed.

Lemma worldcat_scrape_untitled q selected : forall results,
  Forall (fun item => wc_title item = None) selected ->
  WorldCatSource.scrape q selected results = results.
Proof.
  induction selected as [| item rest IH]; intros results H; cbn [WorldCatSource.scrape];
    [reflexivity |].
  inversion H as [| ? ? Hitem Hrest]; subst.
  unfold WorldCatSource.candidate. rewrite Hitem. apply IH. exact Hrest.
Qed.

Lemma slice_to_front {A : Type} (front back : list A) :
  List.length front = CONFIG.MAX_RESULTS_PER_SOURCE ->
  slice_to CONFIG.MAX_RESULTS_PER_SOURCE (front ++ back) = front.
Proof.
  intros H. unfold slice_to. rewrite <- H.
  rewrite firstn_app, Nat.sub_diag, firstn_all. cbn. apply app_nil_r.
Qed.

(** X14.  The limit of three applies to the rows the page selects, before
    any row is examined: the result of a Goodreads or WorldCat search is
    decided by the first three selected rows, and the rows after them change
    nothing.  So when none of the first three has a title (for Goodreads, a
    title and an author), the result is empty, however good the fourth row
    is. *)
Theorem rows_after_the_third_are_ignored (bn : cell) (q : string) (s : State) :
  (forall front back,
     next_goodreads s = Response 200 (Ok (front ++ back)) ->
     List.length front = CONFIG.MAX_RESULTS_PER_SOURCE ->
     outcome_of (GoodreadsSource.search bn q s)
       = Ok match GoodreadsSource.scrape q front [] with
            | Ok l => l
            | Raise _ => []
            end /\
     (Forall (fun item => gr_title item = None \/ gr_author item = None) front ->
      outcome_of (GoodreadsSource.search bn q s) = Ok [])) /\
  (forall front back,
     next_worldcat s = Response 200 (Ok (front ++ back)) ->
     List.length front = CONFIG.MAX_RESULTS_PER_SOURCE ->
     outcome_of (WorldCatSource.search bn q s) = Ok (WorldCatSource.scrape q front []) /\
     (Forall (fun item => wc_title item = None) front ->
      outcome_of (WorldCatSource.search bn q s) = Ok [])).
Proof.
  split.
  - intros front back Hnext Hlen.
    assert (Hrun : outcome_of (GoodreadsSource.search bn q s)
                   = Ok match GoodreadsSource.scrape q front [] with
                        | Ok l => l
                        | Raise _ => []
                        end).
    { revert Hnext. unfold next_goodreads, GoodreadsSource.search, outcome_of.
      run_get (goodreads (world s)); try discriminate.
      intros H. inversion H; subst. cbn.
      rewrite (slice_to_front _ _ Hlen).
      destruct (GoodreadsSource.scrape q front []) as [l | e] eqn:Hs; cbn; [reflexivity |].
      rewrite (goodreads_scrape_raises _ _ _ _ Hs). reflexivity. }
    split; [exact Hrun |].
    intros Hall. rewrite Hrun, (goodreads_scrape_untitled q front [] Hall). reflexivity.
  - intros front back Hnext Hlen.
    assert (Hrun : outcome_of (WorldCatSource.search bn q s)
                   = Ok (WorldCatSource.scrape q front [])).
    { revert Hnext. unfold next_worldcat, WorldCatSource.search, outcome_of.
      run_get (worldcat (world s)); try discriminate.
      intros H. inversion H; subst. cbn.
      rewrite (slice_to_front _ _ Hlen). reflexivity. }
    split; [exact Hrun |].
    intros Hall. rewrite Hrun, (worldcat_scrape_untitled q front [] Hall). reflexivity.
Qed.

Lemma rows_after_the_third_are_ignored_witness :
  outcome_of (GoodreadsSource.search Scenario.title_1984 Scenario.isbn_1984
                Scenario2.headers_first) = Ok [].
Proof.
  destruct (rows_after_the_third_are_ignored Scenario.title_1984 Scenario.isbn_1984
              Scenario2.headers_first) as (Hg & _).
  destruct (Hg [Scenario2.header_row; Scenario2.header_row; Scenario2.header_row]
               [Scenario.goodreads_row "1984"] eq_refl eq_refl) as (_ & Hempty).
  apply Hempty. repeat constructor.
Defined.

(** ** The fallback loop over any list of sources *)

Lemma bind_ret_l {A B : Type} (a : A) (f : A -> M B) s : bind (ret a) f s = f a s.
Proof.
  unfold bind, ret. destruct (f a s) as [[o s'] ev]. reflexivity.
Qed.

Lemma bind_assoc {A B C : Type} (m : M A) (f : A -> M B) (g : B -> M C) s :
  bind (bind m f) g s = bind m (fun a => bind (f a) g) s.
Proof.
  unfold bind. destruct (m s) as [[[a | e] s1] ev1]; [| reflexivity].
  destruct (f a s1) as [[[b | e] s2] ev2]; [| reflexivity].
  destruct (g b s2) as [[o s3] ev3]. rewrite app_assoc. reflexivity.
Qed.

Lemma bind_ext {A B : Type} (m : M A) (f g : A -> M B) s :
  (forall a s1, f a s1 = g a s1) -> bind m f s = bind m g s.
Proof.
  intros H. unfold bind. destruct (m s) as [[[a | e] s1] ev1]; [| reflexivity].
  rewrite H. reflexivity.
Qed.

Lemma search_sources_app xs : forall ys bn q acc s,
  search_sources (xs ++ ys) bn q acc s =
  bind (search_sources xs bn q acc) (fun found => search_sources ys bn q found) s.
Proof.
  induction xs as [| x xs IH]; intros ys bn q acc s; cbn [app search_sources].
  - rewrite bind_ret_l. reflexivity.
  - rewrite bind_assoc. apply bind_ext. intros results s1.
    rewrite bind_assoc. apply bind_ext. intros _ s2. apply IH.
Qed.

Lemma search_sources_extends xs : forall bn q acc s l s' ev,
  search_sources xs bn q acc s = (Ok l, s', ev) -> exists added, l = acc ++ added.
Proof.
  induction xs as [| x xs IH]; intros bn q acc s l s' ev H; cbn [search_sources] in H.
  - inversion H; subst. exists []. symmetry. apply app_nil_r.
  - apply bind_ok_inv in H. destruct H as (results & s1 & ev1 & ev2 & _ & H & _).
    apply bind_ok_inv in H. destruct H as (u & s2 & ev3 & ev4 & _ & H & _).
    apply IH in H. destruct H as (added & ->).
    exists (results ++ added). symmetry. apply app_assoc.
Qed.

(** X15.  The fallback loop works for any list of sources, in list order:
    searching [xs ++ ys] is searching [xs] and then [ys], the second starting
    from what the first has gathered; and the loop only ever appends to what
    has been gathered, so an earlier source's candidates stay in front. *)
Theorem sources_are_consulted_in_order
        (xs ys : list BookSource) (bn : cell) (q : string)
        (acc : list BookData) (s : State) :
  search_sources (xs ++ ys) bn q acc s =
    bind (search_sources xs bn q acc) (fun found => search_sources ys bn q found) s /\
  match outcome_of (search_sources (xs ++ ys) bn q acc s),
        outcome_of (search_sources xs bn q acc s) with
  | Ok all_results, Ok found =>
      exists by_xs by_ys, found = acc ++ by_xs /\ all_results = found ++ by_ys
  | _, _ => True
  end.
Proof.
  split; [apply search_sources_app |].
  rewrite search_sources_app. unfold outcome_of, bind.
  destruct (search_sources xs bn q acc s) as [[[found | e] s1] ev1] eqn:Hx; cbn [fst].
  - destruct (search_sources ys bn q found s1) as [[[l | e] s2] ev2] eqn:Hy;
      cbn [fst]; [| exact I].
    apply search_sources_extends in Hx, Hy.
    destruct Hx as (by_xs & ->). destruct Hy as (by_ys & ->).
    exists by_xs, by_ys. auto.
  - exact I.
Qed.

(** ** Identifiers as text *)

Lemma str_of_Z_inj n m : str_of_Z n = str_of_Z m -> n = m.
Proof.
  unfold str_of_Z. intros H.
  apply DecimalZ.to_int_inj.
  assert (Hgood : forall z, Z.to_int z <> Decimal.Pos Decimal.Nil /\
                            Z.to_int z <> Decimal.Neg Decimal.Nil).
  { intros [| p | p]; cbn; split; try discriminate;
      intros Hp; inversion Hp as [Hp']; exact (DecimalPos.Unsigned.to_uint_nonnil _ Hp'). }
  apply (f_equal NilZero.int_of_string) in H.
  rewrite !NilZero.isi in H by apply Hgood.
  inversion H. reflexivity.
Qed.

(** X16.  Compared as text, integer identifiers are compared exactly: an
    integer identifier is found among integer identifiers of the ledger when
    the same integer is there, and only then; it is also found when the ledger
    holds its decimal digits as a string. *)
Theorem integer_identifiers_compare_exactly (n : Z) (ledger : list Z) :
  (isin (str (CInt n)) (map str (map CInt ledger)) = true <-> In n ledger) /\
  isin (str (CInt n)) (map str [CStr (str_of_Z n)]) = true.
Proof.
  split.
  - rewrite isin_In, map_map. cbn [str]. rewrite in_map_iff. split.
    + intros (m & Hm & Hin). apply str_of_Z_inj in Hm. subst. exact Hin.
    + intros Hin. exists n. auto.
  - apply isin_In. left. reflexivity.
Qed.

(** ** The entry point *)


(** ** The lookups of a run *)

Lemma never_ret kind {A : Type} (a : A) : never kind (ret a).
Proof. intros s o s' ev H. inversion H; subst. reflexivity. Qed.

Lemma never_raise kind {A : Type} (e : exn) : never kind (@raise A e).
Proof. intros s o s' ev H. inversion H; subst. reflexivity. Qed.

Lemma never_lift kind {A : Type} (x : Outcome A) : never kind (lift x).
Proof. intros s o s' ev H. inversion H; subst. reflexivity. Qed.

Lemma never_emit kind (e : Event) : kind e = false -> never kind (emit e).
Proof. intros Hk s o s' ev H. inversion H; subst. cbn. rewrite Hk. reflexivity. Qed.

Lemma never_bind kind {A B : Type} (m : M A) (f : A -> M B) :
  never kind m -> (forall a, never kind (f a)) -> never kind (bind m f).
Proof.
  intros Hm Hf s o s' ev H. apply bind_inv in H.
  destruct H as [(e & Hr & _) | (a & s1 & ev1 & ev2 & Hr & Hr2 & ->)].
  - exact (Hm _ _ _ _ Hr).
  - rewrite filter_app, (Hm _ _ _ _ Hr), (Hf a _ _ _ _ Hr2). reflexivity.
Qed.

Lemma never_try_except kind {A : Type} (body : M A) (handler : exn -> M A) :
  never kind body -> (forall e, never kind (handler e)) ->
  never kind (try_except body handler).
Proof.
  intros Hb Hh s o s' ev. unfold try_except.
  destruct (body s) as [[[a | e] s1] ev1] eqn:Eb.
  - intros H; inversion H; subst. exact (Hb _ _ _ _ Eb).
  - destruct (is_Exception e).
    + destruct (handler e s1) as [[o2 s2] ev2] eqn:Eh. intros H; inversion H; subst.
      rewrite filter_app, (Hb _ _ _ _ Eb), (Hh e _ _ _ _ Eh). reflexivity.
    + intros H; inversion H; subst. exact (Hb _ _ _ _ Eb).
Qed.










(** ** A source that raises *)

(** X19.  [get_book_data] has no handler of its own around [source.search]:
    when a source raises, after Google Books missed and the sources before it
    returned, the exception leaves [get_book_data] as it is; the sources after
    it are not called, no delay follows, and no prompt is shown.  The base
    class [BookSource], whose [search] raises [NotImplementedError], is such a
    source. *)
Theorem a_raising_source_aborts_the_query
        (self : BookEnricher) (before after : list BookSource) (source : BookSource)
        (bn : cell) (q : string) (s s1 s2 s3 : State)
        (found : list BookData) (e : exn) (ev1 ev2 ev3 : list Event) :
  sources self = before ++ source :: after ->
  fetch_google_books self q s = (Ok None, s1, ev1) ->
  search_sources before bn q [] s1 = (Ok found, s2, ev2) ->
  source bn q s2 = (Raise e, s3, ev3) ->
  get_book_data self bn q s =
    (Raise e, s3, ev1 ++ EvPrint (MsgNoGoogle (str bn) q) :: ev2 ++ ev3) /\
  BookSourceBase.search bn q s2 = (Raise NotImplementedError, s2, []).
Proof.
  intros Hsrc Hf Hb Hraise. split; [| reflexivity].
  apply (get_book_data_fallback_raise _ _ _ _ _ _ _ _ _ Hf).
  rewrite Hsrc, search_sources_app. unfold bind at 1. rewrite Hb.
  cbn [search_sources]. unfold bind. rewrite Hraise. reflexivity.
Qed.

Lemma a_raising_source_aborts_the_query_witness :
  outcome_of (get_book_data
                {| api_key := "KEY"; base_url := CONFIG.GOOGLE_BOOKS_API_URL;
                   sources := [GoodreadsSource.search; BookSourceBase.search;
                               WorldCatSource.search] |}
                Scenario.title_1984 Scenario.isbn_1984 Scenario.all_miss)
  = Raise NotImplementedError.
Proof.
  pose (self := {| api_key := "KEY"; base_url := CONFIG.GOOGLE_BOOKS_API_URL;
                   sources := [GoodreadsSource.search; BookSourceBase.search;
                               WorldCatSource.search] |}).
  destruct (a_raising_source_aborts_the_query self
              [GoodreadsSource.search] [WorldCatSource.search] BookSourceBase.search
              Scenario.title_1984 Scenario.isbn_1984 Scenario.all_miss
              (after_google Scenario.all_miss)
              (after_goodreads (after_google Scenario.all_miss))
              (after_goodreads (after_google Scenario.all_miss))
              [] NotImplementedError
              [google_get self Scenario.isbn_1984]
              [goodreads_get Scenario.title_1984 Scenario.isbn_1984;
               EvSleep CONFIG.RATE_LIMIT_DELAY]
              []
              eq_refl eq_refl eq_refl eq_refl) as (Hrun & _).
  unfold outcome_of. fold self. rewrite Hrun. reflexivity.
Defined.

(** ** The size of a prompt *)

Lemma never_get_google kind ep q :
  kind (EvGet ep q) = false -> never kind (session_get_google ep q).
Proof.
  intros Hk s o s' ev. unfold session_get_google, next_reply.
  destruct (google (world s)); intros H; inversion H; subst; cbn; rewrite Hk; reflexivity.
Qed.

Lemma never_get_goodreads kind ep q :
  kind (EvGet ep q) = false -> never kind (session_get_goodreads ep q).
Proof.
  intros Hk s o s' ev. unfold session_get_goodreads, next_reply.
  destruct (goodreads (world s)); intros H; inversion H; subst; cbn; rewrite Hk; reflexivity.
Qed.

Lemma never_get_worldcat kind ep q :
  kind (EvGet ep q) = false -> never kind (session_get_worldcat ep q).
Proof.
  intros Hk s o s' ev. unfold session_get_worldcat, next_reply.
  destruct (worldcat (world s)); intros H; inversion H; subst; cbn; rewrite Hk; reflexivity.
Qed.

Ltac no_prompt :=
  repeat first
    [ apply never_ret | apply never_raise | apply never_lift
    | apply never_emit; reflexivity
    | apply never_get_google; reflexivity
    | apply never_get_goodreads; reflexivity
    | apply never_get_worldcat; reflexivity
    | apply never_try_except; [| intros ?]
    | apply never_bind; [| intros ?]
    | match goal with
      | |- never _ (match ?x with _ => _ end) => destruct x
      | |- never _ (if ?x then _ else _) => destruct x
      end ].

Lemma never_prompt_fetch self q : never is_prompt (fetch_google_books self q).
Proof. unfold fetch_google_books, print. no_prompt. Qed.

Lemma never_prompt_fallbacks key bn q acc :
  never is_prompt (search_sources (sources (BookEnricher_init key)) bn q acc).
Proof.
  cbn [sources BookEnricher_init search_sources].
  unfold GoodreadsSource.search, WorldCatSource.search, sleep, print. no_prompt.
Qed.

Lemma no_prompt_in message choices ev :
  filter is_prompt ev = [] -> ~ In (EvPrompt message choices) ev.
Proof.
  intros Hf Hin.
  assert (H : In (EvPrompt message choices) (filter is_prompt ev))
    by (apply filter_In; split; [exact Hin | reflexivity]).
  rewrite Hf in H. exact H.
Qed.

Lemma choices_of_length l : List.length (choices_of l) = S (List.length l).
Proof.
  unfold choices_of. rewrite length_app, length_map. cbn. lia.
Qed.

Lemma choices_of_last l : last (choices_of l) skip_choice = skip_choice.
Proof.
  unfold choices_of. apply last_last.
Qed.

(** X20.  A prompt shown by [get_book_data] asks about the book being
    processed and offers between two and seven choices: at least one and at
    most six candidates (three for each of the two sources) and, last, the
    option to skip. *)
Theorem prompts_offer_at_most_seven_choices
        (key : string) (bn : cell) (q : string) (s : State)
        (message : string) (choices : list Choice) :
  In (EvPrompt message choices)
     (events_of (get_book_data (BookEnricher_init key) bn q s)) ->
  message = prompt_message bn /\
  2 <= List.length choices <= 2 * CONFIG.MAX_RESULTS_PER_SOURCE + 1 /\
  last choices skip_choice = skip_choice /\
  exists candidates, choices = choices_of candidates /\
                     Forall (fun b => isbn b = q) candidates.
Proof.
  intros Hin.
  destruct (fetch_google_books (BookEnricher_init key) q s) as [[o1 s1] ev1] eqn:Hf.
  pose proof (never_prompt_fetch _ _ _ _ _ _ Hf) as Hq1.
  destruct o1 as [[b |] | e].
  - rewrite (get_book_data_hit _ bn _ _ _ _ _ Hf) in Hin.
    unfold events_of in Hin. cbn [snd] in Hin.
    apply in_app_or in Hin. destruct Hin as [Hin | [Hin | []]]; [| discriminate].
    elim (no_prompt_in _ _ _ Hq1 Hin).
  - destruct (search_sources (sources (BookEnricher_init key)) bn q [] s1)
      as [[[l | e] s2] ev2] eqn:Hs;
      pose proof (never_prompt_fallbacks _ _ _ _ _ _ _ _ Hs) as Hq2.
    + rewrite (get_book_data_fallback _ bn _ _ _ _ _ _ _ Hf Hs) in Hin.
      apply fallback_search_inv in Hs.
      destruct Hs as (gr & s1' & evg & wc & evw & Hg & Hw & -> & _).
      apply goodreads_search_ok in Hg. destruct Hg as (Hlg & Hag & _).
      apply worldcat_search_ok in Hw. destruct Hw as (Hlw & Haw & _).
      assert (Hall : Forall (fun c => isbn c = q) (gr ++ wc)).
      { apply Forall_app. split; eapply from_query_isbn; eassumption. }
      assert (Hlen : List.length (gr ++ wc) <= 2 * CONFIG.MAX_RESULTS_PER_SOURCE)
        by (rewrite length_app; lia).
      destruct (gr ++ wc) as [| c cs] eqn:El;
        unfold events_of in Hin; cbn [snd] in Hin;
        apply in_app_or in Hin; destruct Hin as [Hin | [Hin | Hin]];
        try (elim (no_prompt_in _ _ _ Hq1 Hin)); try discriminate;
        apply in_app_or in Hin; destruct Hin as [Hin | [Hin | []]];
        try (elim (no_prompt_in _ _ _ Hq2 Hin)); try discriminate.
      inversion Hin; subst. split; [reflexivity |].
      rewrite choices_of_length, choices_of_last.
      cbn [List.length] in *. repeat split; try lia.
      exists (c :: cs). auto.
    + rewrite (get_book_data_fallback_raise _ bn _ _ _ _ _ _ _ Hf Hs) in Hin.
      unfold events_of in Hin. cbn [snd] in Hin.
      apply in_app_or in Hin. destruct Hin as [Hin | [Hin | Hin]];
        [elim (no_prompt_in _ _ _ Hq1 Hin) | discriminate
        | elim (no_prompt_in _ _ _ Hq2 Hin)].
  - unfold get_book_data, bind in Hin. rewrite Hf in Hin.
    elim (no_prompt_in _ _ _ Hq1 Hin).
Qed.

Lemma prompts_offer_at_most_seven_choices_witness :
  2 <= List.length
         (choices_of (candidates_of
                        (search_sources (sources (BookEnricher_init "KEY"))
                           Scenario.title_1984 Scenario.isbn_1984 []
                           (after_google Scenario.fallback))))
    <= 7.
Proof.
  refine (proj1 (proj2 (prompts_offer_at_most_seven_choices "KEY" Scenario.title_1984
                          Scenario.isbn_1984 Scenario.fallback
                          (prompt_message Scenario.title_1984) _ _))).
  vm_compute. do 6 right. left. reflexivity.
Defined.
